(** * resume-evaluator: the evaluation pipeline and its generation client

    A shallow embedding of
      - [resume_evaluator/llm.py]             (module [Llm]),
      - [resume_evaluator/schemas.py]         (module [Schemas]),
      - [resume_evaluator/parsers/pdf.py]     (module [Pdf]),
      - [resume_evaluator/agents/*.py]        (module [Agents]),
      - [resume_evaluator/pipeline/graph.py]  (module [Graph]).

    Python code that raises and performs calls to the outside world is
    written in a state-and-exception monad over a [world]: the cached
    OpenAI client and a chronological log of the observable calls.
    Everything that lives outside the repository (the environment, the
    remote service, [json], [pydantic]'s coercions, [pypdf]) is gathered
    in the class [Runtime]; the definitions and theorems hold for every
    instance of it. *)

From Stdlib Require Import Strings.String Strings.Ascii Strings.Byte.
From Stdlib Require Import List ZArith QArith Bool Lia.
Import ListNotations.
Open Scope string_scope.

(* ===================================================================== *)
(** * Python: exceptions, truthiness, effects *)
(* ===================================================================== *)

Module Py.

(** The exception classes that occur in the program.  [str(e)] of the
    first five is their message. *)
Inductive exn : Type :=
| ValueError (msg : string)
| JSONDecodeError (msg : string)      (* json; subclass of ValueError *)
| ValidationError (msg : string)      (* pydantic; subclass of ValueError *)
| PdfReadError (msg : string)         (* pypdf.errors *)
| OtherError (cls msg : string)       (* any other subclass of Exception *)
| RetryError (last_attempt : exn).    (* tenacity *)

(** [isinstance(e, (ValueError, json.JSONDecodeError))]. *)
Definition is_ValueError (e : exn) : bool :=
  match e with
  | ValueError _ | JSONDecodeError _ | ValidationError _ => true
  | PdfReadError _ | OtherError _ _ | RetryError _ => false
  end.

Definition is_JSONDecodeError (e : exn) : bool :=
  match e with JSONDecodeError _ => true | _ => false end.

Definition is_ValidationError (e : exn) : bool :=
  match e with ValidationError _ => true | _ => false end.

Definition is_PdfReadError (e : exn) : bool :=
  match e with PdfReadError _ => true | _ => false end.

(** [str(e)].  The text of a [RetryError] shows the address of a future
    object; only its shape is kept. *)
Fixpoint str (e : exn) : string :=
  match e with
  | ValueError m | JSONDecodeError m | ValidationError m
  | PdfReadError m | OtherError _ m => m
  | RetryError e' => "RetryError[" ++ str e' ++ "]"
  end.

(** Truthiness of [str | None] and of [bytes | None]. *)
Definition truthy_str (o : option string) : bool :=
  match o with
  | Some (String _ _) => true
  | Some EmptyString | None => false
  end.

Definition truthy_bytes (o : option (list byte)) : bool :=
  match o with
  | Some (_ :: _) => true
  | Some [] | None => false
  end.

(** Observable calls, logged in the order they happen. *)
Inductive event : Type :=
| Ev_create                  (* client.chat.completions.create(...) *)
| Ev_sleep (seconds : Z)     (* tenacity sleeping between attempts *)
| Ev_pdf                     (* extract_text_from_pdf entered *)
| Ev_profile                 (* extract_candidate_profile entered *)
| Ev_job                     (* extract_job_description entered *)
| Ev_fit.                    (* evaluate_fit entered *)

Definition event_eqb (a b : event) : bool :=
  match a, b with
  | Ev_create, Ev_create | Ev_pdf, Ev_pdf | Ev_profile, Ev_profile
  | Ev_job, Ev_job | Ev_fit, Ev_fit => true
  | Ev_sleep x, Ev_sleep y => Z.eqb x y
  | _, _ => false
  end.

(** The world: the module-level singleton [_client] of llm.py (is it
    set?) and the log, newest event first. *)
Record world : Type := World { _client : bool; log : list event }.

Definition emit (ev : event) (w : world) : world :=
  World (_client w) (ev :: log w).

Definition count (ev : event) (w : world) : nat :=
  length (filter (event_eqb ev) (log w)).

Inductive outcome (A : Type) : Type :=
| Ok (a : A)
| Raise (e : exn).
Arguments Ok {A} a.
Arguments Raise {A} e.

Definition M (A : Type) : Type := world -> outcome A * world.

Definition ret {A} (a : A) : M A := fun w => (Ok a, w).
Definition raise {A} (e : exn) : M A := fun w => (Raise e, w).
Definition bind {A B} (m : M A) (k : A -> M B) : M B :=
  fun w => match m w with
           | (Ok a, w1) => k a w1
           | (Raise e, w1) => (Raise e, w1)
           end.

(** [try: m  except <cls> as e: handler e], [cls] given as a test. *)
Definition try_except {A} (m : M A) (cls : exn -> bool)
           (handler : exn -> M A) : M A :=
  fun w => match m w with
           | (Ok a, w1) => (Ok a, w1)
           | (Raise e, w1) => if cls e then handler e w1 else (Raise e, w1)
           end.

Definition is_Exception (e : exn) : bool := true.

Definition tell (ev : event) : M unit := fun w => (Ok tt, emit ev w).

(** A library call that returns or raises without touching the world. *)
Definition lift {A} (r : exn + A) : M A :=
  match r with inl e => raise e | inr a => ret a end.

End Py.
Export Py.

Declare Scope py_scope.
Delimit Scope py_scope with py.
Notation "x <- m ;; k" := (bind m (fun x => k))
  (at level 100, m at next level, right associativity) : py_scope.
Notation "m ;;; k" := (bind m (fun _ => k))
  (at level 100, right associativity) : py_scope.
Open Scope py_scope.

(* ===================================================================== *)
(** * JSON documents and the outside world *)
(* ===================================================================== *)

#[local] Set Warnings "-register-all".

(** What [json.loads] returns.  Numbers are the integers; an object is
    its list of members, looked up by key. *)
Inductive json : Type :=
| JNull
| JBool (b : bool)
| JInt (z : Z)
| JStr (s : string)
| JArr (items : list json)
| JObj (members : list (string * json)).

Fixpoint member (key : string) (ms : list (string * json)) : option json :=
  match ms with
  | [] => None
  | (k, v) :: ms' => if String.eqb k key then Some v else member key ms'
  end.

(** The arguments of [client.chat.completions.create]; the response
    format is always [{type: json_object}]. *)
Record request : Type := Request {
  model : string;
  messages : list (string * string);               (* role, content *)
  temperature : Q
}.

(** The collaborators of the program.  [chat_completions_create n req] is
    the behaviour of the [n]-th call (counted from 0) that a run makes to
    [client.chat.completions.create]: it raises, or it returns a response
    whose [choices] carry each a [message.content]. *)
Class Runtime : Type := {
  OPENAI_API_KEY : option string;                  (* os.getenv *)
  chat_completions_create : nat -> request -> exn + list (option string);
  json_loads : string -> string + json;            (* inl: JSONDecodeError *)
  json_dumps : json -> string;                     (* json.dumps(_, indent=2) *)
  (* pydantic: conversion of an input to a field type, lax mode *)
  to_int : json -> option Z;
  to_bool : json -> option bool;
  to_str : json -> option string;
  to_str_list : json -> option (list string);
  (* pydantic: str() of a ValidationError, from its (field, error type) list *)
  ValidationError_str : list (string * string) -> string;
  (* pypdf: PdfReader(BytesIO(b)) raises, or has pages; page.extract_text()
     raises or returns text *)
  PdfReader : list byte -> exn + list (exn + string);
  (* the two record types the pipeline only carries around: their JSON
     schema as json.dumps(model_json_schema(), indent=2), validation
     (inl: str() of the ValidationError) and model_dump_json(indent=2) *)
  CandidateProfile : Type;
  JobDescription : Type;
  CandidateProfile_schema : string;
  JobDescription_schema : string;
  FitEvaluation_schema : string;
  CandidateProfile_model_validate : json -> string + CandidateProfile;
  JobDescription_model_validate : json -> string + JobDescription;
  CandidateProfile_model_dump_json : CandidateProfile -> string;
  JobDescription_model_dump_json : JobDescription -> string
}.

(* ===================================================================== *)
(** * schemas.py *)
(* ===================================================================== *)

Module Schemas.

Record FitEvaluation : Type := mkFitEvaluation {
  fit_score : Z;
  is_fit : bool;
  fit_summary : string;
  strengths : list string;
  gaps : list string;
  recommendations : list string;
  missing_keywords : list string;
  risk_flags : list string
}.

(** The assignment [evaluation.is_fit = b]. *)
Definition set_is_fit (b : bool) (ev : FitEvaluation) : FitEvaluation :=
  mkFitEvaluation (fit_score ev) b (fit_summary ev) (strengths ev)
                  (gaps ev) (recommendations ev) (missing_keywords ev)
                  (risk_flags ev).

Record EvaluationResult {R : Runtime} : Type := mkEvaluationResult {
  candidate_profile : CandidateProfile;
  job_description : JobDescription;
  evaluation : FitEvaluation
}.

(** Validation errors are (field, pydantic error type) pairs; pydantic
    reports all of them together. *)
Definition errors : Type := list (string * string).

Definition errors_of {A} (r : errors + A) : errors :=
  match r with inl es => es | inr _ => [] end.

(** [Field(...)]: a required field of the given type. *)
Definition required {A} (conv : json -> option A) (type_error : string)
           (name : string) (ms : list (string * json)) : errors + A :=
  match member name ms with
  | None => inl [(name, "missing")]
  | Some j => match conv j with
              | None => inl [(name, type_error)]
              | Some a => inr a
              end
  end.

(** [Field(default_factory=list)]: an absent field takes the default. *)
Definition defaulted {A} (conv : json -> option A) (type_error : string)
           (default : A) (name : string) (ms : list (string * json))
  : errors + A :=
  match member name ms with
  | None => inr default
  | Some j => match conv j with
              | None => inl [(name, type_error)]
              | Some a => inr a
              end
  end.

(** The constraints [ge=lo, le=hi] on an integer field. *)
Definition ge_le (lo hi : Z) (name : string) (r : errors + Z) : errors + Z :=
  match r with
  | inl es => inl es
  | inr z => if (z <? lo)%Z then inl [(name, "greater_than_equal")]
             else if (hi <? z)%Z then inl [(name, "less_than_equal")]
             else inr z
  end.

Section Validation.
Context {R : Runtime}.

(** [FitEvaluation.model_validate(json_data)], field by field as the
    class declares them. *)
Definition FitEvaluation_validate (json_data : json)
  : errors + FitEvaluation :=
  match json_data with
  | JObj ms =>
      let c1 := ge_le 0 100 "fit_score"
                      (required to_int "int_type" "fit_score" ms) in
      let c2 := required to_bool "bool_type" "is_fit" ms in
      let c3 := required to_str "string_type" "fit_summary" ms in
      let c4 := defaulted to_str_list "list_type" [] "strengths" ms in
      let c5 := defaulted to_str_list "list_type" [] "gaps" ms in
      let c6 := defaulted to_str_list "list_type" [] "recommendations" ms in
      let c7 := defaulted to_str_list "list_type" [] "missing_keywords" ms in
      let c8 := defaulted to_str_list "list_type" [] "risk_flags" ms in
      match c1, c2, c3, c4, c5, c6, c7, c8 with
      | inr a1, inr a2, inr a3, inr a4, inr a5, inr a6, inr a7, inr a8 =>
          inr (mkFitEvaluation a1 a2 a3 a4 a5 a6 a7 a8)
      | _, _, _, _, _, _, _, _ =>
          inl (errors_of c1 ++ errors_of c2 ++ errors_of c3
               ++ errors_of c4 ++ errors_of c5 ++ errors_of c6
               ++ errors_of c7 ++ errors_of c8)%list
      end
  | _ => inl [(EmptyString, "model_type")]
  end.

(** The same with the error rendered, as the client consumes it. *)
Definition FitEvaluation_model_validate (json_data : json)
  : string + FitEvaluation :=
  match FitEvaluation_validate json_data with
  | inl es => inl (ValidationError_str es)
  | inr ev => inr ev
  end.

End Validation.

End Schemas.
Export Schemas.

(* ===================================================================== *)
(** * config.py and llm.py *)
(* ===================================================================== *)

Module Llm.
Section Client.
Context {R : Runtime}.

(** config.py *)
Definition get_openai_api_key : M string :=
  match OPENAI_API_KEY with
  | Some (String c s) => ret (String c s)
  | Some EmptyString | None =>
      raise (ValueError
        "OPENAI_API_KEY environment variable is not set. Please set it in your .env file or environment.")
  end.

(** The singleton client: created on first use, reused afterwards. *)
Definition get_openai_client : M unit :=
  fun w =>
    if _client w then (Ok tt, w)
    else match get_openai_api_key w with
         | (Ok _, w1) => (Ok tt, World true (log w1))
         | (Raise e, w1) => (Raise e, w1)
         end.

(** One call of [client.chat.completions.create]: the reply is that of
    the call's rank in the run, and the call is logged. *)
Definition create (req : request) : M (list (option string)) :=
  fun w =>
    (match chat_completions_create (count Ev_create w) req with
     | inl e => Raise e
     | inr response => Ok response
     end, emit Ev_create w).

(** [response.choices[0].message.content] *)
Definition first_content (choices : list (option string))
  : M (option string) :=
  match choices with
  | [] => raise (OtherError "IndexError" "list index out of range")
  | c :: _ => ret c
  end.

Definition enhanced_system_prompt (system_prompt schema : string) : string :=
  system_prompt ++ "

You must respond with a valid JSON object that matches this exact schema:
" ++ schema ++ "

Ensure all required fields are present and all values match the schema types and constraints.".

(** tenacity's policy objects. *)
Definition retry_if_exception_type (e : exn) : bool := is_ValueError e.

Definition stop_after_attempt (max_attempt_number attempt_number : nat)
  : bool := (max_attempt_number <=? attempt_number)%nat.

Definition wait_exponential (multiplier min max : Z) (attempt_number : nat)
  : Z :=
  Z.max (Z.max 0 min)
        (Z.min (multiplier * 2 ^ (Z.of_nat attempt_number - 1)) max).

Section Completion.
Context {T : Type}.
Variable schema : string.
Variable model_validate : json -> string + T.
Variables system_prompt user_content : string.
Variable model : string.
Variable temperature : Q.

(** The arguments every attempt passes to the service. *)
Definition completion_request : request :=
  Request model
          [("system", enhanced_system_prompt system_prompt schema);
           ("user", user_content)]
          temperature.

(** The decorated function, one attempt. *)
Definition _call_api : M T :=
  try_except
    (response <- create completion_request ;;
     content <- first_content response ;;
     match content with
     | None | Some EmptyString =>
         raise (ValueError "Empty response from OpenAI API")
     | Some (String c s) =>
         let content := String c s in
         json_data <-
           try_except
             (match json_loads content with
              | inl msg => raise (JSONDecodeError msg)
              | inr j => ret j
              end)
             is_JSONDecodeError
             (fun e => raise (ValueError
                ("Failed to parse JSON response: " ++ str e
                 ++ ". Response: " ++ substring 0 500 content))) ;;
         try_except
           (match model_validate json_data with
            | inl msg => raise (ValidationError msg)
            | inr v => ret v
            end)
           is_ValidationError
           (fun e => raise (ValueError
              ("Pydantic validation failed: " ++ str e
               ++ ". JSON data: "
               ++ substring 0 1000 (json_dumps json_data))))
     end)
    is_Exception
    (fun e => if is_ValueError e then raise e
              else raise (ValueError ("OpenAI API error: " ++ str e))).

(** tenacity's loop around [fn], from attempt [attempt_number] on:
    an outcome that the retry predicate rejects is returned or
    re-raised as it is; otherwise, when the stop condition holds, a
    [RetryError] is raised from the last exception ([reraise] is not
    set); otherwise the loop sleeps for the computed wait and goes to
    the next attempt.  [fuel] bounds the attempts still to come;
    the stop condition fires before it is used up (see
    [retry_loop_fuel]). *)
Fixpoint retry_loop (fuel attempt_number : nat) (fn : M T) : M T :=
  fun w =>
    match fn w with
    | (Ok v, w1) => (Ok v, w1)
    | (Raise e, w1) =>
        if negb (retry_if_exception_type e) then (Raise e, w1)
        else if stop_after_attempt 3 attempt_number
             then (Raise (RetryError e), w1)
             else match fuel with
                  | O => (Raise (RetryError e), w1)
                  | S fuel' =>
                      retry_loop fuel' (S attempt_number) fn
                        (emit (Ev_sleep
                                 (wait_exponential 1 2 10 attempt_number))
                              w1)
                  end
    end.

Definition structured_completion : M T :=
  get_openai_client ;;;
  retry_loop 3 1 _call_api.

End Completion.
End Client.
End Llm.
Export Llm.

(* ===================================================================== *)
(** * parsers/pdf.py *)
(* ===================================================================== *)

Module Pdf.

(** The separator of [join]: two line feeds. *)
Definition blank_line : string :=
  String "010"%char (String "010"%char EmptyString).

(** The body of the loop over [reader.pages]: a page whose extraction
    raises is skipped (after a warning on standard output, which the
    world does not record), and so is a page without text. *)
Definition visit_page (text_parts : list string) (page : exn + string)
  : list string :=
  match page with
  | inr (String c s) => (text_parts ++ [String c s])%list
  | inr EmptyString => text_parts
  | inl _ => text_parts
  end.

Section Parser.
Context {R : Runtime}.

Definition extract_text_from_pdf (pdf_bytes : list byte) : M string :=
  tell Ev_pdf ;;;
  try_except
    (pages <- lift (PdfReader pdf_bytes) ;;
     let text_parts := fold_left visit_page pages [] in
     match text_parts with
     | [] => raise (ValueError "No text could be extracted from the PDF")
     | _ :: _ => ret (String.concat blank_line text_parts)
     end)
    is_Exception
    (fun e =>
       if is_PdfReadError e
       then raise (ValueError ("Failed to read PDF: " ++ str e))
       else raise (ValueError ("Unexpected error parsing PDF: " ++ str e))).

End Parser.
End Pdf.
Export Pdf.

(* ===================================================================== *)
(** * agents/ *)
(* ===================================================================== *)

Module Agents.
Section Stages.
Context {R : Runtime}.

Definition default_model : string := "gpt-4o-mini".
Definition default_temperature : Q := 0.2.

Definition extract_candidate_profile (resume_text : string)
  : M CandidateProfile :=
  tell Ev_profile ;;;
  let system_prompt :=
    "You are an expert at parsing resumes and extracting structured information.
Extract all relevant information from the resume text and structure it according to the schema.
Be thorough and accurate. If information is not available, use appropriate defaults (empty lists, None, etc.)." in
  let user_content :=
    "Extract the candidate profile from the following resume text:

" ++ resume_text in
  structured_completion CandidateProfile_schema
    CandidateProfile_model_validate system_prompt user_content
    default_model default_temperature.

Definition extract_job_description (job_description_text : string)
  : M JobDescription :=
  tell Ev_job ;;;
  let system_prompt :=
    "You are an expert at parsing job descriptions and extracting structured information.
Extract all relevant information from the job description text and structure it according to the schema.
Be thorough and accurate. If information is not available, use appropriate defaults (empty lists, None, etc.)." in
  let user_content :=
    "Extract the job description details from the following text:

" ++ job_description_text in
  structured_completion JobDescription_schema
    JobDescription_model_validate system_prompt user_content
    default_model default_temperature.

Definition evaluate_fit (candidate_profile : CandidateProfile)
           (job_description : JobDescription) : M FitEvaluation :=
  tell Ev_fit ;;;
  let system_prompt :=
    "You are an expert recruiter evaluating a candidate's fit for a job.
Analyze the candidate profile against the job description and provide a comprehensive evaluation.
The fit_score should be an integer from 0 to 100 representing the overall fit.
Set is_fit to true if fit_score >= 70, false otherwise.
Be thorough in identifying strengths, gaps, and providing actionable recommendations." in
  let user_content :=
    "Evaluate the candidate's fit for this job:

CANDIDATE PROFILE:
" ++ CandidateProfile_model_dump_json candidate_profile ++ "

JOB DESCRIPTION:
" ++ JobDescription_model_dump_json job_description ++ "

Provide a detailed evaluation including:
- Fit score (0-100)
- Whether they are a fit (score >= 70)
- Summary of fit
- Key strengths
- Gaps or missing qualifications
- Recommendations for improvement
- Missing keywords from the job description
- Any risk flags or concerns" in
  evaluation <- structured_completion FitEvaluation_schema
                  FitEvaluation_model_validate system_prompt user_content
                  default_model default_temperature ;;
  (* Ensure is_fit is correctly set based on fit_score *)
  let evaluation := set_is_fit (70 <=? fit_score evaluation)%Z evaluation in
  ret evaluation.

End Stages.
End Agents.
Export Agents.

(* ===================================================================== *)
(** * pipeline/graph.py *)
(* ===================================================================== *)

Module Graph.
Section Pipeline.
Context {R : Runtime}.

Record EvaluationState : Type := mkState {
  resume_pdf_bytes : option (list byte);
  resume_text : option string;
  job_description_text : string;
  candidate_profile : option CandidateProfile;
  job_description : option JobDescription;
  evaluation : option FitEvaluation
}.

Definition set_resume_text (v : string) (st : EvaluationState) :=
  mkState (resume_pdf_bytes st) (Some v) (job_description_text st)
          (candidate_profile st) (job_description st) (evaluation st).

Definition set_candidate_profile (v : CandidateProfile)
           (st : EvaluationState) :=
  mkState (resume_pdf_bytes st) (resume_text st) (job_description_text st)
          (Some v) (job_description st) (evaluation st).

Definition set_job_description (v : JobDescription)
           (st : EvaluationState) :=
  mkState (resume_pdf_bytes st) (resume_text st) (job_description_text st)
          (candidate_profile st) (Some v) (evaluation st).

Definition set_evaluation (v : FitEvaluation) (st : EvaluationState) :=
  mkState (resume_pdf_bytes st) (resume_text st) (job_description_text st)
          (candidate_profile st) (job_description st) (Some v).

Definition parse_resume_node (state : EvaluationState)
  : M EvaluationState :=
  if truthy_str (resume_text state) then ret state
  else
    match resume_pdf_bytes state with
    | None | Some [] =>
        raise (ValueError
                 "Either resume_text or resume_pdf_bytes must be provided")
    | Some (b :: bs) =>
        resume_text <- extract_text_from_pdf (b :: bs) ;;
        ret (set_resume_text resume_text state)
    end.

Definition profile_node (state : EvaluationState) : M EvaluationState :=
  match resume_text state with
  | None | Some EmptyString =>
      raise (ValueError "resume_text is required for profile extraction")
  | Some (String c s) =>
      candidate_profile <- extract_candidate_profile (String c s) ;;
      ret (set_candidate_profile candidate_profile state)
  end.

Definition job_node (state : EvaluationState) : M EvaluationState :=
  match job_description_text state with
  | EmptyString => raise (ValueError "job_description_text is required")
  | String c s =>
      job_description <- extract_job_description (String c s) ;;
      ret (set_job_description job_description state)
  end.

Definition evaluate_node (state : EvaluationState) : M EvaluationState :=
  match candidate_profile state, job_description state with
  | Some p, Some j =>
      evaluation <- evaluate_fit p j ;;
      ret (set_evaluation evaluation state)
  | _, _ =>
      raise (ValueError
        "Both candidate_profile and job_description are required for evaluation")
  end.

(** The compiled graph: entry point [parse_resume], then the edges
    parse_resume -> profile -> job -> evaluate -> END. *)
Definition build_evaluation_graph
  : list (EvaluationState -> M EvaluationState) :=
  [parse_resume_node; profile_node; job_node; evaluate_node].

(** [graph.invoke]: the nodes run one after the other on the state the
    previous one returned; an exception leaves the graph. *)
Fixpoint invoke (graph : list (EvaluationState -> M EvaluationState))
         (state : EvaluationState) : M EvaluationState :=
  match graph with
  | [] => ret state
  | node :: rest => state' <- node state ;; invoke rest state'
  end.

Definition get_evaluation_graph := build_evaluation_graph.

Definition run_evaluation (resume_pdf_bytes : option (list byte))
           (resume_text : option string) (job_description_text : string)
  : M EvaluationResult :=
  if negb (truthy_str (Some job_description_text))
  then raise (ValueError "job_description_text is required")
  else if negb (truthy_bytes resume_pdf_bytes)
          && negb (truthy_str resume_text)
  then raise (ValueError
                "Either resume_pdf_bytes or resume_text must be provided")
  else
    let graph := get_evaluation_graph in
    let initial_state :=
      mkState resume_pdf_bytes resume_text job_description_text
              None None None in
    final_state <- invoke graph initial_state ;;
    match candidate_profile final_state, job_description final_state,
          evaluation final_state with
    | Some p, Some j, Some e => ret (mkEvaluationResult R p j e)
    | _, _, _ =>
        raise (ValueError "Pipeline failed to produce complete evaluation")
    end.

End Pipeline.
End Graph.
Export Graph.

(* ===================================================================== *)
(** * Vocabulary of the specification *)
(* ===================================================================== *)

Module Spec.
Section Replies.
Context {R : Runtime} {T : Type}.

(** What one reply of the service amounts to for a target schema. *)
Inductive verdict : Type :=
| TransportError (e : exn)        (* the call itself raised *)
| NoChoice                        (* response.choices is empty *)
| EmptyContent                    (* content is None or the empty string *)
| MalformedJSON (content msg : string)
| SchemaViolation (content : string) (json_data : json) (msg : string)
| Conforming (v : T).

Definition classify (model_validate : json -> string + T)
           (reply : exn + list (option string)) : verdict :=
  match reply with
  | inl e => TransportError e
  | inr [] => NoChoice
  | inr (None :: _) | inr (Some EmptyString :: _) => EmptyContent
  | inr (Some (String c s) :: _) =>
      match json_loads (String c s) with
      | inl msg => MalformedJSON (String c s) msg
      | inr j => match model_validate j with
                 | inl msg => SchemaViolation (String c s) j msg
                 | inr v => Conforming v
                 end
      end
  end.

(** The two classes the specification calls recoverable. *)
Definition recoverable (v : verdict) : bool :=
  match v with
  | MalformedJSON _ _ | SchemaViolation _ _ _ => true
  | _ => false
  end.

(** What an attempt that received this reply returns or raises. *)
Definition attempt_outcome (v : verdict) : outcome T :=
  match v with
  | TransportError e =>
      Raise (if is_ValueError e then e
             else ValueError ("OpenAI API error: " ++ str e))
  | NoChoice =>
      Raise (ValueError ("OpenAI API error: " ++ "list index out of range"))
  | EmptyContent => Raise (ValueError "Empty response from OpenAI API")
  | MalformedJSON content msg =>
      Raise (ValueError ("Failed to parse JSON response: " ++ msg
                         ++ ". Response: " ++ substring 0 500 content))
  | SchemaViolation _ j msg =>
      Raise (ValueError ("Pydantic validation failed: " ++ msg
                         ++ ". JSON data: "
                         ++ substring 0 1000 (json_dumps j)))
  | Conforming v => Ok v
  end.

(** The wait the specification gives after attempt [attempt]:
    min(10, 1 * 2^(attempt-1)), not below 2 seconds. *)
Definition backoff (attempt : nat) : Z :=
  Z.max 2 (Z.min 10 (1 * 2 ^ (Z.of_nat attempt - 1))).

(** A call made under the retry policy, told by the verdicts of the
    three replies it may consume: its outcome and the calls it adds
    to the log (newest first). *)
Definition run_by_verdicts (v1 v2 v3 : verdict)
  : outcome T * list event :=
  match attempt_outcome v1 with
  | Ok v => (Ok v, [Ev_create])
  | Raise _ =>
      match attempt_outcome v2 with
      | Ok v => (Ok v, [Ev_create; Ev_sleep (backoff 1); Ev_create])
      | Raise _ =>
          (match attempt_outcome v3 with
           | Ok v => Ok v
           | Raise e => Raise (RetryError e)
           end,
           [Ev_create; Ev_sleep (backoff 2); Ev_create;
            Ev_sleep (backoff 1); Ev_create])
      end
  end.

(** The client exists already or can be created. *)
Definition client_ready (w : world) : bool :=
  _client w || truthy_str OPENAI_API_KEY.

End Replies.

(** The texts of the pages that yield some, in page order. *)
Definition readable_texts (pages : list (exn + string)) : list string :=
  flat_map (fun page => match page with
                        | inr (String c s) => [String c s]
                        | inr EmptyString | inl _ => []
                        end) pages.

Definition pdf_texts {R : Runtime} (pdf_bytes : list byte) : list string :=
  match PdfReader pdf_bytes with
  | inl _ => []
  | inr pages => readable_texts pages
  end.

(** The events of [w'] that are not yet in [w] are all [Ev_pdf]: no
    stage was entered and the service was not called. *)
Definition only_pdf_since (w w' : world) : Prop :=
  exists evs, log w' = (evs ++ log w)%list
              /\ Forall (fun ev => ev = Ev_pdf) evs.

End Spec.
Export Spec.

(* ===================================================================== *)
(** * api/app.py *)
(* ===================================================================== *)

Module Api.

(** The body of [POST /evaluate/json]. *)
Record EvaluateRequest : Type := mkEvaluateRequest {
  resume_text : option string;
  job_description_text : string
}.

(** An uploaded file: its declared content type and what [read()] gives. *)
Record UploadFile : Type := mkUploadFile {
  content_type : option string;
  read : list byte
}.

(** What a handler does: it returns its result or raises HTTPException. *)
Inductive http (A : Type) : Type :=
| Returned (a : A)
| HTTPException (status_code : nat) (detail : string).
Arguments Returned {A} a.
Arguments HTTPException {A} status_code detail.

Definition status {A} (r : http A) : nat :=
  match r with
  | Returned _ => 200
  | HTTPException status_code _ => status_code
  end.

Section Endpoints.
Context {R : Runtime}.

(** The [try ... except ValueError ... except Exception] around the run,
    the same in both handlers. *)
Definition try_run (run : M EvaluationResult)
  : world -> http EvaluationResult * world :=
  fun w =>
    match run w with
    | (Ok result, w1) => (Returned result, w1)
    | (Raise e, w1) =>
        if is_ValueError e
        then (HTTPException 400 (str e), w1)
        else (HTTPException 500 ("Evaluation failed: " ++ str e), w1)
    end.

Definition evaluate_resume (resume : option UploadFile)
           (job_description resume_text job_description_text : option string)
  : world -> http EvaluationResult * world :=
  fun w =>
    (* jd_text = job_description or job_description_text *)
    let jd_text := if truthy_str job_description then job_description
                   else job_description_text in
    match jd_text with
    | None | Some EmptyString =>
        (HTTPException 400
           "job_description or job_description_text is required", w)
    | Some (String c s) =>
        let resume_text_input := resume_text in
        let upload :=
          match resume with
          | Some file =>
              match content_type file with
              | None => inr (Some (read file))
              | Some ct =>
                  if String.eqb ct "application/pdf"
                  then inr (Some (read file))
                  else inl "Resume file must be a PDF"
              end
          | None => inr None
          end in
        match upload with
        | inl detail => (HTTPException 400 detail, w)
        | inr resume_pdf_bytes =>
            if negb (truthy_bytes resume_pdf_bytes)
               && negb (truthy_str resume_text_input)
            then (HTTPException 400
                    "Either resume file or resume_text must be provided", w)
            else try_run (run_evaluation resume_pdf_bytes resume_text_input
                                         (String c s)) w
        end
    end.

Definition evaluate_resume_json (request : EvaluateRequest)
  : world -> http EvaluationResult * world :=
  fun w =>
    match job_description_text request with
    | EmptyString =>
        (HTTPException 400 "job_description_text is required", w)
    | String c s =>
        match resume_text request with
        | None | Some EmptyString =>
            (HTTPException 400 "resume_text is required for JSON endpoint", w)
        | Some (String c' s') =>
            try_run (run_evaluation None (Some (String c' s')) (String c s)) w
        end
    end.

End Endpoints.
End Api.

(* ===================================================================== *)
(** * Measures of a run *)
(* ===================================================================== *)

Module Measures.

(** The seconds slept, summed over the log. *)
Fixpoint seconds (evs : list event) : Z :=
  match evs with
  | [] => 0
  | Ev_sleep s :: evs' => s + seconds evs'
  | _ :: evs' => seconds evs'
  end.

Definition slept (w : world) : Z := seconds (log w).

(** The events that record an entry into the extractor or a stage. *)
Definition entry (ev : event) : bool :=
  match ev with
  | Ev_pdf | Ev_profile | Ev_job | Ev_fit => true
  | Ev_create | Ev_sleep _ => false
  end.

(** The message of config.py when the key is not set. *)
Definition key_message : string :=
  "OPENAI_API_KEY environment variable is not set. Please set it in your .env file or environment.".

(** The log of [k] attempts and the waits between them, newest first. *)
Fixpoint attempts_log (k : nat) : list event :=
  match k with
  | O => []
  | S O => [Ev_create]
  | S (S k' as k1) => Ev_create :: Ev_sleep (backoff k1) :: attempts_log k1
  end.

(** The ValueErrors that a run raises for what it was given: the two
    precondition messages and the two prefixes of the extractor. *)
Definition input_message (msg : string) : Prop :=
  msg = "job_description_text is required"
  \/ msg = "Either resume_pdf_bytes or resume_text must be provided"
  \/ (exists x, msg = "Failed to read PDF: " ++ x)
  \/ (exists x, msg = "Unexpected error parsing PDF: " ++ x).

(** What entering a stage and making its generation call does to the
    world [w], as seen on the result [r]: the stage is entered once, at
    most three calls of the service and four seconds of sleep are added,
    and the call returns with a client in place after at least one call
    of the service, or fails for the missing key before any, or fails
    with a RetryError after three. *)
Definition stage_effect {R : Runtime} {A : Type} (stage : event) (w : world)
           (r : outcome A * world) : Prop :=
  (forall ev, entry ev = true ->
              count ev (snd r)
              = (count ev w + if event_eqb ev stage then 1 else 0)%nat)
  /\ (count Ev_create w <= count Ev_create (snd r) <= count Ev_create w + 3)%nat
  /\ (slept w <= slept (snd r) <= slept w + 4)%Z
  /\ (client_ready w = true -> client_ready (snd r) = true)
  /\ match fst r with
     | Ok _ => client_ready (snd r) = true
               /\ (count Ev_create w < count Ev_create (snd r))%nat
     | Raise e =>
         (e = ValueError key_message
          /\ count Ev_create (snd r) = count Ev_create w
          /\ client_ready w = false)
         \/ (exists e3, e = RetryError e3 /\ is_ValueError e3 = true
                        /\ count Ev_create (snd r)
                           = (count Ev_create w + 3)%nat)
     end.

End Measures.
Export Measures.

(* ===================================================================== *)
(** * The generation call of the fit stage *)
(* ===================================================================== *)

Module FitStage.
Section Generation.
Context {R : Runtime}.

(** The two prompts of agents/evaluate_fit.py. *)
Definition fit_system_prompt : string :=
  "You are an expert recruiter evaluating a candidate's fit for a job.
Analyze the candidate profile against the job description and provide a comprehensive evaluation.
The fit_score should be an integer from 0 to 100 representing the overall fit.
Set is_fit to true if fit_score >= 70, false otherwise.
Be thorough in identifying strengths, gaps, and providing actionable recommendations.".

Definition fit_user_content (candidate_profile : CandidateProfile)
           (job_description : JobDescription) : string :=
  "Evaluate the candidate's fit for this job:

CANDIDATE PROFILE:
" ++ CandidateProfile_model_dump_json candidate_profile ++ "

JOB DESCRIPTION:
" ++ JobDescription_model_dump_json job_description ++ "

Provide a detailed evaluation including:
- Fit score (0-100)
- Whether they are a fit (score >= 70)
- Summary of fit
- Key strengths
- Gaps or missing qualifications
- Recommendations for improvement
- Missing keywords from the job description
- Any risk flags or concerns".

(** The call [structured_completion(schema_model=FitEvaluation, ...)] that
    [evaluate_fit] makes, before it touches the result. *)
Definition fit_generation (candidate_profile : CandidateProfile)
           (job_description : JobDescription) : M FitEvaluation :=
  structured_completion FitEvaluation_schema FitEvaluation_model_validate
                        fit_system_prompt
                        (fit_user_content candidate_profile job_description)
                        default_model default_temperature.

End Generation.
End FitStage.
Export FitStage.

(* ===================================================================== *)
(** * Concrete runtimes for the examples *)
(* ===================================================================== *)

Module Demo.

Definition dq : string := String "034"%char EmptyString.
Definition quoted (s : string) : string := dq ++ s ++ dq.

(** The text and the document of a fit evaluation. *)
Definition fit_text (score flag summary : string) : string :=
  "{" ++ quoted "fit_score" ++ ": " ++ score ++ ", "
      ++ quoted "is_fit" ++ ": " ++ flag ++ ", "
      ++ quoted "fit_summary" ++ ": " ++ quoted summary ++ "}".

Definition fit_doc (score : Z) (flag : bool) (summary : string) : json :=
  JObj [("fit_score", JInt score); ("is_fit", JBool flag);
        ("fit_summary", JStr summary)].

Definition profile_text : string :=
  "{" ++ quoted "summary" ++ ": " ++ quoted "Experienced software engineer"
      ++ "}".
Definition profile_doc : json :=
  JObj [("summary", JStr "Experienced software engineer")].

Definition job_text : string :=
  "{" ++ quoted "title" ++ ": " ++ quoted "Senior Software Engineer" ++ ", "
      ++ quoted "summary" ++ ": " ++ quoted "Looking for an engineer" ++ "}".
Definition job_doc : json :=
  JObj [("title", JStr "Senior Software Engineer");
        ("summary", JStr "Looking for an engineer")].

Definition score75_unfit : string := fit_text "75" "false" "solid match".
Definition score40_fit : string := fit_text "40" "true" "major gaps".
Definition score150 : string := fit_text "150" "true" "off the scale".

(** A decoder that knows the documents above; any other text is
    malformed. *)
Definition documents : list (string * json) :=
  [(score75_unfit, fit_doc 75 false "solid match");
   (score40_fit, fit_doc 40 true "major gaps");
   (score150, fit_doc 150 true "off the scale");
   (profile_text, profile_doc);
   (job_text, job_doc)].

Definition loads (s : string) : string + json :=
  match member s documents with
  | Some j => inr j
  | None => inl "Expecting value: line 1 column 1 (char 0)"
  end.

Definition dumps (j : json) : string := "{...}".

Definition int_of (j : json) : option Z :=
  match j with JInt z => Some z | _ => None end.
Definition bool_of (j : json) : option bool :=
  match j with JBool b => Some b | _ => None end.
Definition str_of (j : json) : option string :=
  match j with JStr s => Some s | _ => None end.
Definition str_list_of (j : json) : option (list string) :=
  match j with
  | JArr items =>
      fold_right (fun item acc =>
                    match str_of item, acc with
                    | Some s, Some l => Some (s :: l)
                    | _, _ => None
                    end) (Some []) items
  | _ => None
  end.

Definition render (es : list (string * string)) : string :=
  String.concat "; " (map (fun e => fst e ++ ": " ++ snd e) es).

(** Stand-ins for the two carried record types: the document itself,
    accepted when its required text fields are there. *)
Definition needs (fields : list string) (j : json) : string + json :=
  match j with
  | JObj ms =>
      if forallb (fun f => match member f ms with
                           | Some (JStr _) => true
                           | _ => false
                           end) fields
      then inr j else inl "Field required"
  | _ => inl "Input should be a valid dictionary"
  end.

Definition reply : Type := exn + list (option string).

Definition says (content : string) : reply := inr [Some content].
Definition connection_error : exn :=
  OtherError "APIConnectionError" "Connection error.".

(** The service answers the [n]-th call with the [n]-th scripted reply
    and fails to connect once the script is over. *)
Definition runtime (key : option string) (script : list reply)
           (reader : list byte -> exn + list (exn + string)) : Runtime :=
  {| OPENAI_API_KEY := key;
     chat_completions_create := fun n _ => nth n script (inl connection_error);
     json_loads := loads;
     json_dumps := dumps;
     to_int := int_of;
     to_bool := bool_of;
     to_str := str_of;
     to_str_list := str_list_of;
     ValidationError_str := render;
     PdfReader := reader;
     CandidateProfile := json;
     JobDescription := json;
     CandidateProfile_schema := "{...}";
     JobDescription_schema := "{...}";
     FitEvaluation_schema := "{...}";
     CandidateProfile_model_validate := needs ["summary"];
     JobDescription_model_validate := needs ["title"; "summary"];
     CandidateProfile_model_dump_json := dumps;
     JobDescription_model_dump_json := dumps |}.

Definition key : option string := Some "sk-test".

(** Readers: a document of the given pages, whatever the bytes. *)
Definition pages_reader (pages : list (exn + string))
  : list byte -> exn + list (exn + string) := fun _ => inr pages.

Definition scanned_pdf : list (exn + string) :=
  [inr EmptyString; inl (OtherError "KeyError" "/Contents"); inr EmptyString].

Definition mixed_pdf : list (exn + string) :=
  [inr "Jane Doe"; inl (OtherError "KeyError" "/Contents"); inr EmptyString;
   inr "Skills: Python"].

Definition some_bytes : list byte := [x25; x50; x44; x46].

Definition fresh : world := World false [].

End Demo.

(* ===================================================================== *)
(** * The log *)
(* ===================================================================== *)

Section LogFacts.

Lemma count_emit_same (ev : event) (w : world) :
  event_eqb ev ev = true -> count ev (emit ev w) = S (count ev w).
Proof.
  intros Heq. unfold count, emit. simpl. now rewrite Heq.
Qed.

Lemma count_emit_other (ev ev' : event) (w : world) :
  event_eqb ev ev' = false -> count ev (emit ev' w) = count ev w.
Proof.
  intros Hne. unfold count, emit. simpl. now rewrite Hne.
Qed.

Lemma count_create_emit_create (w : world) :
  count Ev_create (emit Ev_create w) = S (count Ev_create w).
Proof. now apply count_emit_same. Qed.

Lemma count_create_emit_sleep (s : Z) (w : world) :
  count Ev_create (emit (Ev_sleep s) w) = count Ev_create w.
Proof. now apply count_emit_other. Qed.

Lemma count_app (ev : event) (b : bool) (evs l : list event) :
  count ev (World b (evs ++ l))
  = (length (filter (event_eqb ev) evs) + count ev (World b l))%nat.
Proof.
  unfold count. simpl. now rewrite filter_app, length_app.
Qed.

End LogFacts.

(* ===================================================================== *)
(** * The generation client *)
(* ===================================================================== *)

Section ClientFacts.
Context {R : Runtime} {T : Type}.
Variable schema : string.
Variable model_validate : json -> string + T.
Variables system_prompt user_content model : string.
Variable temperature : Q.

Let req : request :=
  completion_request schema system_prompt user_content model temperature.
Let attempt : M T :=
  _call_api schema model_validate system_prompt user_content model
            temperature.
Let call : M T :=
  structured_completion schema model_validate system_prompt user_content
                        model temperature.
(** The verdict of the reply to the call of rank [n]. *)
Let verdict_at (n : nat) : verdict :=
  classify model_validate (chat_completions_create n req).

(** One attempt is one call of the service, and its outcome is the one
    the verdict of the reply tells. *)
Lemma call_api_verdict (w : world) :
  attempt w
  = (attempt_outcome (verdict_at (count Ev_create w)), emit Ev_create w).
Proof.
  unfold attempt, verdict_at, req, _call_api, try_except, bind, create,
    classify.
  destruct (chat_completions_create _ _) as [e | [ | [[ | c s] | ] rest]];
    cbn; try reflexivity.
  - destruct (is_ValueError e); reflexivity.
  - destruct (json_loads (String c s)) as [msg | j]; cbn; try reflexivity.
    destruct (model_validate j) as [msg | v]; cbn; reflexivity.
Qed.

(** Whatever an attempt raises is a ValueError. *)
Lemma attempt_outcome_retryable (v : @verdict T) (e : exn) :
  attempt_outcome v = Raise e -> retry_if_exception_type e = true.
Proof.
  destruct v; cbn; intros [= <-]; try reflexivity.
  destruct (is_ValueError e0) eqn:He; [exact He | reflexivity].
Qed.

Lemma wait_exponential_backoff (attempt_number : nat) :
  wait_exponential 1 2 10 attempt_number = backoff attempt_number.
Proof.
  unfold wait_exponential, backoff.
  change (Z.max 0 2) with 2%Z. now rewrite Z.min_comm.
Qed.

Lemma get_openai_client_ready (w : world) :
  client_ready w = true ->
  get_openai_client w = (Ok tt, World true (log w)).
Proof.
  unfold client_ready, get_openai_client, get_openai_api_key.
  destruct w as [[ | ] l]; cbn; [reflexivity | ].
  destruct OPENAI_API_KEY as [[ | c s] | ]; cbn;
    intros Hk; try discriminate Hk; reflexivity.
Qed.

Lemma get_openai_client_missing (w : world) :
  client_ready w = false ->
  exists msg, get_openai_client w = (Raise (ValueError msg), w).
Proof.
  unfold client_ready, get_openai_client, get_openai_api_key.
  destruct w as [[ | ] l]; cbn; [discriminate | ].
  destruct OPENAI_API_KEY as [[ | c s] | ]; cbn;
    intros Hk; try discriminate Hk; eexists; reflexivity.
Qed.

(** The retry loop, started at attempt 1 with the budget of three, on
    the verdicts of the replies it consumes. *)
Lemma retry_loop_verdicts (w : world) :
  let n := count Ev_create w in
  let run := run_by_verdicts (verdict_at n) (verdict_at (S n))
                             (verdict_at (S (S n))) in
  retry_loop 3 1 attempt w
  = (fst run, World (_client w) (snd run ++ log w)).
Proof.
  cbn zeta. unfold run_by_verdicts. cbn [retry_loop].
  rewrite call_api_verdict.
  destruct (attempt_outcome (verdict_at (count Ev_create w)))
    as [v1 | e1] eqn:H1; [reflexivity | ].
  rewrite (attempt_outcome_retryable _ _ H1). cbn [negb stop_after_attempt Nat.leb].
  rewrite call_api_verdict, count_create_emit_sleep, count_create_emit_create.
  rewrite wait_exponential_backoff.
  destruct (attempt_outcome (verdict_at (S (count Ev_create w))))
    as [v2 | e2] eqn:H2; [reflexivity | ].
  rewrite (attempt_outcome_retryable _ _ H2). cbn [negb stop_after_attempt Nat.leb].
  rewrite call_api_verdict, count_create_emit_sleep, count_create_emit_create.
  rewrite wait_exponential_backoff.
  rewrite count_create_emit_sleep, count_create_emit_create.
  destruct (attempt_outcome (verdict_at (S (S (count Ev_create w)))))
    as [v3 | e3] eqn:H3; [reflexivity | ].
  rewrite (attempt_outcome_retryable _ _ H3). reflexivity.
Qed.

(** The budget given to the loop is never the reason it stops: any
    larger one gives the same run. *)
Lemma retry_loop_fuel (fuel : nat) (w : world) :
  retry_loop (3 + fuel) 1 attempt w = retry_loop 3 1 attempt w.
Proof.
  cbn [retry_loop Nat.add].
  destruct (attempt w) as [[v1 | e1] w1]; [reflexivity | ].
  destruct (negb (retry_if_exception_type e1)); [reflexivity | ].
  cbn [stop_after_attempt Nat.leb].
  destruct (attempt _) as [[v2 | e2] w2]; [reflexivity | ].
  destruct (negb (retry_if_exception_type e2)); [reflexivity | ].
  cbn [stop_after_attempt Nat.leb].
  destruct (attempt _) as [[v3 | e3] w3]; [reflexivity | ].
  destruct (negb (retry_if_exception_type e3)); reflexivity.
Qed.

(** The whole call, when the client is there. *)
Lemma structured_completion_verdicts (w : world) :
  client_ready w = true ->
  let n := count Ev_create w in
  let run := run_by_verdicts (verdict_at n) (verdict_at (S n))
                             (verdict_at (S (S n))) in
  call w = (fst run, World true (snd run ++ log w)).
Proof.
  intros Hready. cbn zeta. unfold call, structured_completion, bind.
  rewrite (get_openai_client_ready w Hready).
  fold attempt. rewrite retry_loop_verdicts. reflexivity.
Qed.

(** Without a client nothing is attempted. *)
Lemma structured_completion_no_client (w : world) :
  client_ready w = false ->
  exists msg, call w = (Raise (ValueError msg), w).
Proof.
  intros Hmissing. unfold call, structured_completion, bind.
  destruct (get_openai_client_missing w Hmissing) as [msg ->].
  now exists msg.
Qed.

End ClientFacts.

Section RetryPolicy.
Context {R : Runtime} {T : Type}.
Variable schema : string.
Variable model_validate : json -> string + T.
Variables system_prompt user_content model : string.
Variable temperature : Q.

Let req : request :=
  completion_request schema system_prompt user_content model temperature.
Let attempt : M T :=
  _call_api schema model_validate system_prompt user_content model
            temperature.
Let call : M T :=
  structured_completion schema model_validate system_prompt user_content
                        model temperature.
Let verdict_at (n : nat) : verdict :=
  classify model_validate (chat_completions_create n req).

Lemma run_by_verdicts_creates (v1 v2 v3 : @verdict T) (b : bool)
      (l : list event) :
  (count Ev_create (World b (snd (run_by_verdicts v1 v2 v3) ++ l))
   <= 3 + count Ev_create (World b l))%nat.
Proof.
  rewrite count_app. apply Nat.add_le_mono_r.
  unfold run_by_verdicts.
  destruct (attempt_outcome v1); [cbn; lia | ].
  destruct (attempt_outcome v2); cbn; lia.
Qed.

(** A call never makes more than three calls of the service. *)
Lemma structured_completion_budget (w : world) :
  (count Ev_create (snd (call w)) <= count Ev_create w + 3)%nat.
Proof.
  destruct (client_ready w) eqn:Hready.
  - unfold call. rewrite structured_completion_verdicts by exact Hready.
    cbn [snd]. rewrite Nat.add_comm.
    apply run_by_verdicts_creates.
  - destruct (structured_completion_no_client schema model_validate
                system_prompt user_content model temperature w Hready)
      as [msg Hrun].
    unfold call. rewrite Hrun. cbn [snd]. lia.
Qed.

(** A first attempt that fails, for whatever reason, is followed by a wait
    and a second attempt; and a call that got that far fails only with
    the [RetryError] of its third attempt. *)
Lemma first_failure_retried (w : world) (e1 : exn) :
  client_ready w = true ->
  attempt_outcome (verdict_at (count Ev_create w)) = Raise e1 ->
  (exists evs, log (snd (call w))
               = (evs ++ [Ev_create; Ev_sleep (backoff 1); Ev_create]
                      ++ log w)%list)
  /\ (count Ev_create w + 2 <= count Ev_create (snd (call w)))%nat
  /\ (forall e, fst (call w) = Raise e ->
        exists e3, e = RetryError e3 /\ is_ValueError e3 = true
                   /\ count Ev_create (snd (call w))
                      = (count Ev_create w + 3)%nat).
Proof.
  intros Hready H1. unfold call, verdict_at, req in *.
  rewrite structured_completion_verdicts by exact Hready.
  cbn zeta. unfold run_by_verdicts. rewrite H1.
  destruct (attempt_outcome
              (classify model_validate
                 (chat_completions_create (S (count Ev_create w)) _)))
    as [v2 | e2] eqn:H2; cbn [fst snd log].
  - split; [exists []; reflexivity | ]. split.
    + rewrite count_app. cbn. unfold count. cbn. lia.
    + intros e [=].
  - split; [exists [Ev_create; Ev_sleep (backoff 2)]; reflexivity | ]. split.
    + rewrite count_app. cbn. unfold count. cbn. lia.
    + intros e He.
      destruct (attempt_outcome
                  (classify model_validate
                     (chat_completions_create (S (S (count Ev_create w))) _)))
        as [v3 | e3] eqn:H3; [discriminate He | ].
      injection He as <-. exists e3. split; [reflexivity | ]. split.
      * exact (attempt_outcome_retryable _ _ H3).
      * rewrite count_app. cbn. unfold count. cbn. lia.
Qed.

(** What a call returns was accepted by the schema. *)
Lemma structured_completion_validated (w w' : world) (v : T) :
  call w = (Ok v, w') -> exists j, model_validate j = inr v.
Proof.
  assert (Hconf : forall u : verdict,
             attempt_outcome u = Ok v -> u = Conforming v).
  { intros u. destruct u; cbn; intros [=]. now subst. }
  assert (Hcls : forall reply, classify model_validate reply = Conforming v ->
                               exists j, model_validate j = inr v).
  { intros reply. unfold classify.
    destruct reply as [e | [ | [[ | c s] | ] rest]]; try discriminate.
    destruct (json_loads (String c s)) as [msg | j]; [discriminate | ].
    destruct (model_validate j) as [msg | v'] eqn:Hv; [discriminate | ].
    intros [= ->]. now exists j. }
  destruct (client_ready w) eqn:Hready.
  - unfold call. rewrite structured_completion_verdicts by exact Hready.
    cbn zeta. unfold run_by_verdicts.
    destruct (attempt_outcome
                (classify model_validate
                   (chat_completions_create (count Ev_create w) _)))
      as [v1 | e1] eqn:H1.
    { cbn. intros [= -> _]. exact (Hcls _ (Hconf _ H1)). }
    destruct (attempt_outcome
                (classify model_validate
                   (chat_completions_create (S (count Ev_create w)) _)))
      as [v2 | e2] eqn:H2.
    { cbn. intros [= -> _]. exact (Hcls _ (Hconf _ H2)). }
    destruct (attempt_outcome
                (classify model_validate
                   (chat_completions_create (S (S (count Ev_create w))) _)))
      as [v3 | e3] eqn:H3; cbn; intros [= Hv _].
    subst v3. exact (Hcls _ (Hconf _ H3)).
  - destruct (structured_completion_no_client schema model_validate
                system_prompt user_content model temperature w Hready)
      as [msg Hrun].
    unfold call. rewrite Hrun. intros [=].
Qed.

End RetryPolicy.

(* ===================================================================== *)
(** * The schema of the fit evaluation *)
(* ===================================================================== *)

Section SchemaFacts.
Context {R : Runtime}.

Lemma ge_le_bounds (lo hi : Z) (name : string) (r : errors + Z) (z : Z) :
  ge_le lo hi name r = inr z -> r = inr z /\ (lo <= z <= hi)%Z.
Proof.
  unfold ge_le. destruct r as [es | z']; [discriminate | ].
  destruct (Z.ltb_spec z' lo); [discriminate | ].
  destruct (Z.ltb_spec hi z'); [discriminate | ].
  intros [= ->]. split; [reflexivity | lia].
Qed.

Lemma ge_le_rejects (lo hi : Z) (name : string) (z : Z) :
  (z < lo \/ hi < z)%Z -> exists es, ge_le lo hi name (inr z) = inl es.
Proof.
  intros Hout. unfold ge_le.
  destruct (Z.ltb_spec z lo); [eexists; reflexivity | ].
  destruct (Z.ltb_spec hi z); [eexists; reflexivity | lia].
Qed.

Lemma required_some {A} (conv : json -> option A) (type_error name : string)
      (ms : list (string * json)) (a : A) :
  required conv type_error name ms = inr a ->
  exists x, member name ms = Some x /\ conv x = Some a.
Proof.
  unfold required. destruct (member name ms) as [x | ]; [ | discriminate].
  destruct (conv x) as [a' | ] eqn:Hc; [ | discriminate].
  intros [= ->]. now exists x.
Qed.

(** An accepted document has its score between 0 and 100, and the score
    is the one the document gives. *)
Lemma FitEvaluation_validate_score (j : json) (ev : FitEvaluation) :
  FitEvaluation_validate j = inr ev ->
  (0 <= fit_score ev <= 100)%Z
  /\ exists ms x, j = JObj ms /\ member "fit_score" ms = Some x
                  /\ to_int x = Some (fit_score ev).
Proof.
  unfold FitEvaluation_validate. destruct j; try discriminate. cbn zeta.
  destruct (ge_le 0 100 "fit_score" _) as [es1 | a1] eqn:H1; [discriminate | ].
  destruct (required to_bool _ _ _) as [es2 | a2]; [discriminate | ].
  destruct (required to_str _ _ _) as [es3 | a3]; [discriminate | ].
  destruct (defaulted _ _ _ "strengths" _) as [es4 | a4]; [discriminate | ].
  destruct (defaulted _ _ _ "gaps" _) as [es5 | a5]; [discriminate | ].
  destruct (defaulted _ _ _ "recommendations" _) as [es6 | a6];
    [discriminate | ].
  destruct (defaulted _ _ _ "missing_keywords" _) as [es7 | a7];
    [discriminate | ].
  destruct (defaulted _ _ _ "risk_flags" _) as [es8 | a8]; [discriminate | ].
  intros [= <-]. cbn [fit_score].
  destruct (ge_le_bounds _ _ _ _ _ H1) as [Hreq Hrange].
  split; [exact Hrange | ].
  destruct (required_some _ _ _ _ _ Hreq) as (x & Hx & Hconv).
  now exists members, x.
Qed.

(** A score outside the range makes the validation fail. *)
Lemma FitEvaluation_validate_out_of_range (ms : list (string * json))
      (x : json) (z : Z) :
  member "fit_score" ms = Some x -> to_int x = Some z ->
  (z < 0 \/ 100 < z)%Z ->
  exists es, FitEvaluation_validate (JObj ms) = inl es.
Proof.
  intros Hx Hconv Hout. unfold FitEvaluation_validate. cbn zeta.
  unfold required at 1. rewrite Hx, Hconv.
  destruct (ge_le_rejects 0 100 "fit_score" z Hout) as [es ->].
  eexists. reflexivity.
Qed.

End SchemaFacts.

(* ===================================================================== *)
(** * Properties of the generation client and of the fit stage *)
(* ===================================================================== *)

(** What the fit stage returns is what the generation call returned and
    the schema accepted, with the flag set from the score. *)
Lemma fit_stage_output {R : Runtime}
      (profile : CandidateProfile) (job : JobDescription)
      (w w' : world) (ev : FitEvaluation) :
  evaluate_fit profile job w = (Ok ev, w') ->
  exists j raw, FitEvaluation_model_validate j = inr raw
                /\ ev = set_is_fit (70 <=? fit_score raw)%Z raw.
Proof.
  unfold evaluate_fit, bind, tell. cbn zeta.
  destruct (structured_completion _ _ _ _ _ _ (emit Ev_fit w))
    as [[raw | e] w1] eqn:Hrun; [ | discriminate].
  unfold ret. intros [= <- <-].
  destruct (structured_completion_validated _ _ _ _ _ _ _ _ _ Hrun)
    as [j Hj].
  now exists j, raw.
Qed.

(** C1.  The fit stage recomputes the flag after the generation call,
    whatever the call returned: when the call returns a record, the
    stage returns that record with [is_fit] overwritten by
    [fit_score >= 70] (a record with the score 75 and the flag unset
    comes back with the flag set), and when the call raises, the stage
    raises the same.  Hence every FitEvaluation that [evaluate_fit]
    returns has [is_fit = (fit_score >= 70)]: it is the record that the
    generation call returned and the schema accepted, with its flag
    overwritten by the comparison. *)
Theorem evaluate_fit_recomputes_is_fit {R : Runtime}
        (profile : CandidateProfile) (job : JobDescription) (w : world) :
  (forall raw w1,
      fit_generation profile job (emit Ev_fit w) = (Ok raw, w1) ->
      evaluate_fit profile job w
      = (Ok (mkFitEvaluation (fit_score raw) (70 <=? fit_score raw)%Z
                             (fit_summary raw) (strengths raw) (gaps raw)
                             (recommendations raw) (missing_keywords raw)
                             (risk_flags raw)), w1))
  /\ (forall e w1,
         fit_generation profile job (emit Ev_fit w) = (Raise e, w1) ->
         evaluate_fit profile job w = (Raise e, w1))
  /\ (forall ev w',
         evaluate_fit profile job w = (Ok ev, w') ->
         is_fit ev = (70 <=? fit_score ev)%Z
         /\ exists j raw, FitEvaluation_model_validate j = inr raw
                          /\ ev = set_is_fit (70 <=? fit_score raw)%Z raw).
Proof.
  split; [ | split].
  - intros raw w1 Hgen.
    unfold evaluate_fit, bind, tell. cbn zeta.
    unfold fit_generation, fit_system_prompt, fit_user_content in Hgen.
    rewrite Hgen. reflexivity.
  - intros e w1 Hgen.
    unfold evaluate_fit, bind, tell. cbn zeta.
    unfold fit_generation, fit_system_prompt, fit_user_content in Hgen.
    rewrite Hgen. reflexivity.
  - intros ev w' Hrun.
    destruct (fit_stage_output profile job w w' ev Hrun)
      as (j & raw & Hj & ->).
    split; [reflexivity | ]. now exists j, raw.
Qed.

(** The service reports a score of 75 with the flag unset: the generation
    call returns that record, and the stage returns it with the flag
    set. *)
Lemma evaluate_fit_recomputes_is_fit_witness :
  let R := Demo.runtime Demo.key [Demo.says Demo.score75_unfit]
                        (Demo.pages_reader []) in
  fit_generation Demo.profile_doc Demo.job_doc (emit Ev_fit Demo.fresh)
  = (Ok (mkFitEvaluation 75 false "solid match" [] [] [] [] []),
     World true [Ev_create; Ev_fit])
  /\ evaluate_fit Demo.profile_doc Demo.job_doc Demo.fresh
     = (Ok (mkFitEvaluation 75 true "solid match" [] [] [] [] []),
        World true [Ev_create; Ev_fit]).
Proof.
  cbn zeta. split; [vm_compute; reflexivity | ].
  apply (proj1 (@evaluate_fit_recomputes_is_fit
                  (Demo.runtime Demo.key [Demo.says Demo.score75_unfit]
                                (Demo.pages_reader []))
                  Demo.profile_doc Demo.job_doc Demo.fresh)
               (mkFitEvaluation 75 false "solid match" [] [] [] [] [])
               (World true [Ev_create; Ev_fit])).
  vm_compute. reflexivity.
Defined.




(** C3.  The code at an input where its last part does not hold.  The
    docstring of [structured_completion] promises "Raises: ValueError: If
    JSON parsing or validation fails", and the callers catch ValueError.
    Here the three attempts all receive malformed JSON: the retry loop,
    which is not configured to re-raise, raises tenacity's RetryError
    holding the ValueError of the last attempt, and that ValueError is
    not what reaches the caller. *)
Lemma exhausted_retries_raise_RetryError :
  let R := Demo.runtime Demo.key
             [Demo.says "not json"; Demo.says "{"; Demo.says "oops"]
             (Demo.pages_reader []) in
  let req := completion_request FitEvaluation_schema "system" "user"
                                default_model default_temperature in
  let verdict_at k := classify FitEvaluation_model_validate
                               (chat_completions_create k req) in
  let run := structured_completion FitEvaluation_schema
               FitEvaluation_model_validate "system" "user"
               default_model default_temperature Demo.fresh in
  let final := ValueError
    "Failed to parse JSON response: Expecting value: line 1 column 1 (char 0). Response: oops" in
  recoverable (verdict_at 0%nat) = true
  /\ recoverable (verdict_at 1%nat) = true
  /\ recoverable (verdict_at 2%nat) = true
  /\ attempt_outcome (verdict_at 2%nat) = Raise final
  /\ fst run = Raise (RetryError final)
  /\ fst run <> Raise final
  /\ count Ev_create (snd run) = 3%nat.
Proof.
  cbn zeta. repeat split; try (vm_compute; reflexivity).
  vm_compute. discriminate.
Qed.

(** The retry loop as the code has it.  A call of the client makes at
    most three calls of the service, and sleeps between two consecutive
    ones for the exponential backoff min(10, 1 * 2^(attempt-1)) raised to
    the floor of 2 seconds, which is what [wait_exponential] computes.
    When the first two replies are malformed JSON and the third conforms
    to the schema, the call returns the third after exactly three calls
    of the service.  When all three replies are recoverable failures, the
    loop raises after three calls of the service, and what it raises is a
    RetryError around the error of the last attempt. *)
Theorem structured_completion_retry_policy {R : Runtime} {T : Type}
        (schema : string) (model_validate : json -> string + T)
        (system_prompt user_content model : string) (temperature : Q)
        (w : world) :
  let req := completion_request schema system_prompt user_content model
                                temperature in
  let verdict_at k := classify model_validate
                        (chat_completions_create (count Ev_create w + k) req) in
  let run := structured_completion schema model_validate system_prompt
                                   user_content model temperature w in
  (count Ev_create (snd run) <= count Ev_create w + 3)%nat
  /\ (forall attempt_number,
        wait_exponential 1 2 10 attempt_number = backoff attempt_number)
  /\ (exists evs,
        log (snd run) = (evs ++ log w)%list
        /\ (evs = [] \/ evs = [Ev_create]
            \/ evs = [Ev_create; Ev_sleep (backoff 1); Ev_create]
            \/ evs = [Ev_create; Ev_sleep (backoff 2); Ev_create;
                      Ev_sleep (backoff 1); Ev_create]))
  /\ (client_ready w = true ->
      forall c1 m1 c2 m2 v,
        verdict_at 0%nat = MalformedJSON c1 m1 ->
        verdict_at 1%nat = MalformedJSON c2 m2 ->
        verdict_at 2%nat = Conforming v ->
        fst run = Ok v
        /\ count Ev_create (snd run) = (count Ev_create w + 3)%nat)
  /\ (client_ready w = true ->
      recoverable (verdict_at 0%nat) = true ->
      recoverable (verdict_at 1%nat) = true ->
      recoverable (verdict_at 2%nat) = true ->
      exists e, attempt_outcome (verdict_at 2%nat) = Raise e
                /\ fst run = Raise (RetryError e)
                /\ count Ev_create (snd run) = (count Ev_create w + 3)%nat).
Proof.
  cbn beta zeta.
  replace (count Ev_create w + 0)%nat with (count Ev_create w) by lia.
  replace (count Ev_create w + 1)%nat with (S (count Ev_create w)) by lia.
  replace (count Ev_create w + 2)%nat with (S (S (count Ev_create w))) by lia.
  assert (Hfail : forall u : @verdict T,
             recoverable u = true -> exists e, attempt_outcome u = Raise e).
  { intros u Hu. destruct u; try discriminate Hu; eexists; reflexivity. }
  split; [apply structured_completion_budget | ].
  split; [apply wait_exponential_backoff | ].
  destruct (client_ready w) eqn:Hready.
  - rewrite structured_completion_verdicts by exact Hready.
    cbn zeta. unfold run_by_verdicts. cbn [fst snd log].
    split; [ | split].
    + destruct (attempt_outcome _) as [v1 | e1].
      { eexists. split; [reflexivity | ]. right. left. reflexivity. }
      destruct (attempt_outcome _) as [v2 | e2].
      { eexists. split; [reflexivity | ]. right. right. left. reflexivity. }
      eexists. split; [reflexivity | ]. right. right. right. reflexivity.
    + intros _ c1 m1 c2 m2 v -> -> ->. cbn [attempt_outcome fst snd].
      split; [reflexivity | ].
      rewrite count_app. cbn. unfold count. cbn. lia.
    + intros _ H1 H2 H3.
      destruct (Hfail _ H1) as [e1 ->]. destruct (Hfail _ H2) as [e2 ->].
      destruct (Hfail _ H3) as [e3 ->]. cbn [fst snd].
      exists e3. split; [reflexivity | ]. split; [reflexivity | ].
      rewrite count_app. cbn. unfold count. cbn. lia.
  - destruct (structured_completion_no_client schema model_validate
                system_prompt user_content model temperature w Hready)
      as [msg ->].
    cbn [fst snd]. split; [ | split; intros Hf; discriminate Hf].
    exists []. split; [reflexivity | left; reflexivity].
Qed.

(** Two malformed replies and then a conforming one: the third is
    returned after three calls.  Three malformed replies: a RetryError
    after three calls. *)
Lemma structured_completion_retry_policy_witness :
  (let R := Demo.runtime Demo.key
              [Demo.says "not json"; Demo.says "{";
               Demo.says Demo.score40_fit]
              (Demo.pages_reader []) in
   let run := structured_completion FitEvaluation_schema
                FitEvaluation_model_validate "system" "user"
                default_model default_temperature Demo.fresh in
   fst run = Ok (mkFitEvaluation 40 true "major gaps" [] [] [] [] [])
   /\ count Ev_create (snd run) = (0 + 3)%nat)
  /\
  (let R := Demo.runtime Demo.key
              [Demo.says "not json"; Demo.says Demo.score150;
               Demo.says "oops"]
              (Demo.pages_reader []) in
   let req := completion_request FitEvaluation_schema "system" "user"
                                 default_model default_temperature in
   let run := structured_completion FitEvaluation_schema
                FitEvaluation_model_validate "system" "user"
                default_model default_temperature Demo.fresh in
   exists e,
     attempt_outcome (classify FitEvaluation_model_validate
                               (chat_completions_create 2 req)) = Raise e
     /\ fst run = Raise (RetryError e)
     /\ count Ev_create (snd run) = (0 + 3)%nat).
Proof.
  split; cbn zeta.
  - refine (proj1 (proj2 (proj2 (proj2
      (@structured_completion_retry_policy
         (Demo.runtime Demo.key
            [Demo.says "not json"; Demo.says "{"; Demo.says Demo.score40_fit]
            (Demo.pages_reader []))
         FitEvaluation FitEvaluation_schema FitEvaluation_model_validate
         "system" "user" default_model default_temperature Demo.fresh))))
      _ "not json" _ "{" _ _ _ _ _); vm_compute; reflexivity.
  - refine (proj2 (proj2 (proj2 (proj2
      (@structured_completion_retry_policy
         (Demo.runtime Demo.key
            [Demo.says "not json"; Demo.says Demo.score150; Demo.says "oops"]
            (Demo.pages_reader []))
         FitEvaluation FitEvaluation_schema FitEvaluation_model_validate
         "system" "user" default_model default_temperature Demo.fresh))))
      _ _ _ _); vm_compute; reflexivity.
Defined.

(** C10.  When the reply has no content, or an empty one, the attempt
    raises ValueError("Empty response from OpenAI API"); the retry
    predicate accepts it as it accepts the error for malformed JSON, so
    the client waits and makes a further attempt instead of letting the
    error through, and such a call fails only with the RetryError raised
    after the third attempt. *)
Theorem empty_content_is_retried {R : Runtime} {T : Type}
        (schema : string) (model_validate : json -> string + T)
        (system_prompt user_content model : string) (temperature : Q)
        (w : world) (content : option string) (rest : list (option string)) :
  let req := completion_request schema system_prompt user_content model
                                temperature in
  let attempt := _call_api schema model_validate system_prompt user_content
                           model temperature in
  let run := structured_completion schema model_validate system_prompt
                                   user_content model temperature w in
  let raised := ValueError "Empty response from OpenAI API" in
  client_ready w = true ->
  chat_completions_create (count Ev_create w) req = inr (content :: rest) ->
  truthy_str content = false ->
  attempt w = (Raise raised, emit Ev_create w)
  /\ retry_if_exception_type raised = true
  /\ (forall c msg, exists e,
        attempt_outcome (@MalformedJSON T c msg) = Raise e
        /\ retry_if_exception_type e = retry_if_exception_type raised)
  /\ (exists evs, log (snd run)
                  = (evs ++ [Ev_create; Ev_sleep (backoff 1); Ev_create]
                         ++ log w)%list)
  /\ (count Ev_create w + 2 <= count Ev_create (snd run))%nat
  /\ (forall e', fst run = Raise e' ->
        exists e3, e' = RetryError e3 /\ is_ValueError e3 = true
                   /\ count Ev_create (snd run)
                      = (count Ev_create w + 3)%nat).
Proof.
  cbn zeta. intros Hready Hreply Hempty.
  assert (Hout : attempt_outcome
                   (classify model_validate
                      (chat_completions_create (count Ev_create w)
                         (completion_request schema system_prompt
                            user_content model temperature)))
                 = Raise (ValueError "Empty response from OpenAI API")).
  { rewrite Hreply. destruct content as [[ | c s] | ];
      [reflexivity | discriminate Hempty | reflexivity]. }
  split; [ | split; [ | split]].
  - rewrite call_api_verdict, Hout. reflexivity.
  - reflexivity.
  - intros c msg. eexists. split; reflexivity.
  - exact (first_failure_retried _ _ _ _ _ _ w _ Hready Hout).
Qed.

Lemma empty_content_is_retried_witness :
  let R := Demo.runtime Demo.key
             [inr [None]; Demo.says Demo.score75_unfit]
             (Demo.pages_reader []) in
  let run := structured_completion FitEvaluation_schema
               FitEvaluation_model_validate "system" "user"
               default_model default_temperature Demo.fresh in
  (0 + 2 <= count Ev_create (snd run))%nat.
Proof.
  cbn zeta.
  refine (proj1 (proj2 (proj2 (proj2 (proj2
    (@empty_content_is_retried
       (Demo.runtime Demo.key
          [inr [None]; Demo.says Demo.score75_unfit]
          (Demo.pages_reader []))
       FitEvaluation FitEvaluation_schema FitEvaluation_model_validate
       "system" "user" default_model default_temperature Demo.fresh
       None [] _ _ _)))))); reflexivity.
Defined.

(** C4.  A FitEvaluation that the schema accepts has an integer score
    between 0 and 100, the very score of the document (nothing is
    clamped), and so has every FitEvaluation the fit stage returns.  A
    reply whose score lies outside the range fails the validation; the
    attempt raises the ValueError "Pydantic validation failed: ...", which
    the retry predicate accepts, and the client makes a further attempt. *)
Theorem fit_score_validated_in_range {R : Runtime} :
  (forall j ev,
      FitEvaluation_validate j = inr ev ->
      (0 <= fit_score ev <= 100)%Z
      /\ exists ms x, j = JObj ms /\ member "fit_score" ms = Some x
                      /\ to_int x = Some (fit_score ev))
  /\ (forall profile job w w' ev,
         evaluate_fit profile job w = (Ok ev, w') ->
         (0 <= fit_score ev <= 100)%Z)
  /\ (forall system_prompt user_content model temperature w c s rest ms x z,
         let req := completion_request FitEvaluation_schema system_prompt
                                       user_content model temperature in
         let attempt := _call_api FitEvaluation_schema
                          FitEvaluation_model_validate system_prompt
                          user_content model temperature in
         let run := structured_completion FitEvaluation_schema
                      FitEvaluation_model_validate system_prompt
                      user_content model temperature w in
         client_ready w = true ->
         chat_completions_create (count Ev_create w) req
         = inr (Some (String c s) :: rest) ->
         json_loads (String c s) = inr (JObj ms) ->
         member "fit_score" ms = Some x -> to_int x = Some z ->
         (z < 0 \/ 100 < z)%Z ->
         exists msg,
           FitEvaluation_model_validate (JObj ms) = inl msg
           /\ attempt w
              = (Raise (ValueError
                          ("Pydantic validation failed: " ++ msg
                           ++ ". JSON data: "
                           ++ substring 0 1000 (json_dumps (JObj ms)))),
                 emit Ev_create w)
           /\ retry_if_exception_type
                (ValueError
                   ("Pydantic validation failed: " ++ msg
                    ++ ". JSON data: "
                    ++ substring 0 1000 (json_dumps (JObj ms)))) = true
           /\ (count Ev_create w + 2 <= count Ev_create (snd run))%nat
           /\ (forall e', fst run = Raise e' ->
                 exists e3, e' = RetryError e3 /\ is_ValueError e3 = true)).
Proof.
  split; [exact FitEvaluation_validate_score | split].
  - intros profile job w w' ev Hrun.
    destruct (fit_stage_output profile job w w' ev Hrun)
      as (j & raw & Hj & ->).
    cbn [set_is_fit fit_score].
    unfold FitEvaluation_model_validate in Hj.
    destruct (FitEvaluation_validate j) as [es | ev'] eqn:Hv; [discriminate | ].
    injection Hj as ->.
    exact (proj1 (FitEvaluation_validate_score _ _ Hv)).
  - cbn zeta.
    intros system_prompt user_content model temperature w c s rest ms x z
           Hready Hreply Hloads Hx Hconv Hout.
    destruct (FitEvaluation_validate_out_of_range ms x z Hx Hconv Hout)
      as [es Hes].
    exists (ValidationError_str es).
    assert (Hval : FitEvaluation_model_validate (JObj ms)
                   = inl (ValidationError_str es)).
    { unfold FitEvaluation_model_validate. now rewrite Hes. }
    assert (Hverdict : attempt_outcome
                         (classify FitEvaluation_model_validate
                            (chat_completions_create (count Ev_create w)
                               (completion_request FitEvaluation_schema
                                  system_prompt user_content model
                                  temperature)))
                       = Raise (ValueError
                                  ("Pydantic validation failed: "
                                   ++ ValidationError_str es
                                   ++ ". JSON data: "
                                   ++ substring 0 1000 (json_dumps (JObj ms))))).
    { rewrite Hreply. unfold classify. rewrite Hloads, Hval. reflexivity. }
    split; [exact Hval | ]. split.
    { rewrite call_api_verdict, Hverdict. reflexivity. }
    split; [reflexivity | ].
    destruct (first_failure_retried _ _ _ _ _ _ w _ Hready Hverdict)
      as (_ & Hcount & Hfail).
    split; [exact Hcount | ].
    intros e' He'. destruct (Hfail e' He') as (e3 & -> & He3 & _).
    now exists e3.
Qed.

(** A reply with the score 150 is refused and followed by a further
    attempt; the score 75 of the next reply is returned as it is. *)
Lemma fit_score_validated_in_range_witness :
  let R := Demo.runtime Demo.key
             [Demo.says Demo.score150; Demo.says Demo.score75_unfit]
             (Demo.pages_reader []) in
  let run := structured_completion FitEvaluation_schema
               FitEvaluation_model_validate "system" "user"
               default_model default_temperature Demo.fresh in
  (0 <= 75 <= 100)%Z
  /\ (exists msg,
         FitEvaluation_model_validate
           (Demo.fit_doc 150 true "off the scale") = inl msg
         /\ (0 + 2 <= count Ev_create (snd run))%nat).
Proof.
  cbn zeta. split.
  - refine (proj1 (proj1 (@fit_score_validated_in_range
              (Demo.runtime Demo.key
                 [Demo.says Demo.score150; Demo.says Demo.score75_unfit]
                 (Demo.pages_reader [])))
              (Demo.fit_doc 75 false "solid match")
              (mkFitEvaluation 75 false "solid match" [] [] [] [] []) _)).
    reflexivity.
  - destruct (proj2 (proj2 (@fit_score_validated_in_range
              (Demo.runtime Demo.key
                 [Demo.says Demo.score150; Demo.says Demo.score75_unfit]
                 (Demo.pages_reader []))))
              "system" "user" default_model default_temperature Demo.fresh
              "{"%char
              (match Demo.score150 with
               | String _ s => s
               | EmptyString => EmptyString
               end)
              []
              [("fit_score", JInt 150); ("is_fit", JBool true);
               ("fit_summary", JStr "off the scale")]
              (JInt 150) 150%Z
              eq_refl eq_refl eq_refl eq_refl eq_refl
              (or_intror eq_refl))
      as (msg & Hmsg & _ & _ & Hcount & _).
    exists msg. split; [exact Hmsg | exact Hcount].
Defined.

(* ===================================================================== *)
(** * The PDF text extractor *)
(* ===================================================================== *)

Lemma fold_visit_page (pages : list (exn + string)) (acc : list string) :
  fold_left visit_page pages acc = (acc ++ readable_texts pages)%list.
Proof.
  revert acc. induction pages as [ | page pages IH]; intros acc; cbn.
  - now rewrite app_nil_r.
  - rewrite IH. destruct page as [e | [ | c s]]; cbn; try reflexivity.
    now rewrite <- app_assoc.
Qed.

(** The extractor logs its call and nothing else. *)
Lemma extractor_run {R : Runtime} (pdf_bytes : list byte)
      (w : world) :
  extract_text_from_pdf pdf_bytes w
  = (fst (extract_text_from_pdf pdf_bytes w), emit Ev_pdf w)
  /\ ((exists e, fst (extract_text_from_pdf pdf_bytes w) = Raise e)
      <-> pdf_texts pdf_bytes = []).
Proof.
  unfold extract_text_from_pdf, bind, tell, try_except, lift, pdf_texts.
  destruct (PdfReader pdf_bytes) as [e | pages]; cbn.
  - split; [destruct (is_PdfReadError e); reflexivity | ].
    split; [reflexivity | intros _].
    destruct (is_PdfReadError e); eexists; reflexivity.
  - rewrite fold_visit_page. cbn [app].
    destruct (readable_texts pages) as [ | t ts]; cbn.
    + split; [reflexivity | ].
      split; [reflexivity | intros _; eexists; reflexivity].
    + split; [reflexivity | ].
      split; [intros [e He]; discriminate He | discriminate].
Qed.

(** C7.  The extractor runs over the pages in order, skips those whose
    extraction raises or gives no text, and returns the texts of the
    others joined by a blank line, that is, with two line feeds between
    one text and the next; it raises exactly when no page gave text (an
    unreadable document has no page that could). *)
Theorem extract_text_from_pdf_pages {R : Runtime} (pdf_bytes : list byte)
        (w : world) :
  extract_text_from_pdf pdf_bytes w
  = (match PdfReader pdf_bytes with
     | inl e =>
         Raise (ValueError
                  ((if is_PdfReadError e then "Failed to read PDF: "
                    else "Unexpected error parsing PDF: ") ++ str e))
     | inr pages =>
         match readable_texts pages with
         | [] => Raise (ValueError
                   "Unexpected error parsing PDF: No text could be extracted from the PDF")
         | t :: ts => Ok (String.concat "

" (t :: ts))
         end
     end, emit Ev_pdf w)
  /\ ((exists e, fst (extract_text_from_pdf pdf_bytes w) = Raise e)
      <-> pdf_texts pdf_bytes = []).
Proof.
  assert (Heq : extract_text_from_pdf pdf_bytes w
                = (match PdfReader pdf_bytes with
                   | inl e =>
                       Raise (ValueError
                                ((if is_PdfReadError e
                                  then "Failed to read PDF: "
                                  else "Unexpected error parsing PDF: ")
                                 ++ str e))
                   | inr pages =>
                       match readable_texts pages with
                       | [] => Raise (ValueError
                                 "Unexpected error parsing PDF: No text could be extracted from the PDF")
                       | t :: ts => Ok (String.concat "

" (t :: ts))
                       end
                   end, emit Ev_pdf w)).
  { unfold extract_text_from_pdf, bind, tell, try_except, lift.
    destruct (PdfReader pdf_bytes) as [e | pages]; cbn.
    - destruct (is_PdfReadError e); reflexivity.
    - rewrite fold_visit_page. cbn [app].
      destruct (readable_texts pages); reflexivity. }
  split; [exact Heq | ].
  rewrite Heq. unfold pdf_texts. cbn [fst].
  destruct (PdfReader pdf_bytes) as [e | pages].
  - split; [reflexivity | intros _; eexists; reflexivity].
  - destruct (readable_texts pages) as [ | t ts].
    + split; [reflexivity | intros _; eexists; reflexivity].
    + split; [intros [e He]; discriminate He | discriminate].
Qed.

(* ===================================================================== *)
(** * The pipeline *)
(* ===================================================================== *)

(** C8.  On a state whose [resume_text] is there (a non-empty string) the
    first node returns the state as it received it and leaves the world
    alone: the PDF extractor is not called. *)
Theorem parse_resume_node_pass_through {R : Runtime}
        (state : EvaluationState) (w : world) :
  truthy_str (resume_text state) = true ->
  parse_resume_node state w = (Ok state, w).
Proof.
  intros Htext. unfold parse_resume_node. now rewrite Htext.
Qed.

Lemma parse_resume_node_pass_through_witness :
  let R := Demo.runtime Demo.key [] (Demo.pages_reader Demo.mixed_pdf) in
  let state := mkState None (Some "Jane Doe, engineer") "Engineer wanted"
                       None None None in
  parse_resume_node state Demo.fresh = (Ok state, Demo.fresh).
Proof.
  cbn zeta.
  apply (@parse_resume_node_pass_through
           (Demo.runtime Demo.key [] (Demo.pages_reader Demo.mixed_pdf))).
  reflexivity.
Defined.

(** C9.  The first node decides by truthiness.  A non-empty
    [resume_text] wins over PDF bytes given with it: the state comes back
    unchanged and the extractor is not called.  An empty [resume_text]
    counts as none: the node behaves as on the state without text, that
    is, with bytes it calls the extractor and stores its text, and without
    bytes it raises the missing-input error. *)
Theorem parse_resume_node_truthiness {R : Runtime}
        (pdf_bytes : option (list byte)) (jd : string)
        (profile : option CandidateProfile) (job : option JobDescription)
        (ev : option FitEvaluation) (w : world) :
  (forall c s,
      let state := mkState pdf_bytes (Some (String c s)) jd profile job ev in
      parse_resume_node state w = (Ok state, w))
  /\ parse_resume_node (mkState pdf_bytes (Some EmptyString) jd profile job ev) w
     = parse_resume_node (mkState pdf_bytes None jd profile job ev) w
  /\ (forall b bs,
        pdf_bytes = Some (b :: bs) ->
        parse_resume_node
          (mkState pdf_bytes (Some EmptyString) jd profile job ev) w
        = match extract_text_from_pdf (b :: bs) w with
          | (Ok text, w1) =>
              (Ok (mkState pdf_bytes (Some text) jd profile job ev), w1)
          | (Raise e, w1) => (Raise e, w1)
          end
        /\ log (snd (parse_resume_node
                       (mkState pdf_bytes (Some EmptyString) jd profile job ev)
                       w))
           = Ev_pdf :: log w)
  /\ (truthy_bytes pdf_bytes = false ->
      parse_resume_node
        (mkState pdf_bytes (Some EmptyString) jd profile job ev) w
      = (Raise (ValueError
                  "Either resume_text or resume_pdf_bytes must be provided"),
         w)).
Proof.
  split; [intros c s; reflexivity | ].
  split.
  { unfold parse_resume_node. cbn.
    destruct pdf_bytes as [[ | b bs] | ]; reflexivity. }
  split.
  - intros b bs ->. unfold parse_resume_node.
    cbn [truthy_str resume_text resume_pdf_bytes]. unfold bind.
    split.
    + destruct (extract_text_from_pdf (b :: bs) w) as [[t | e] w1];
        reflexivity.
    + rewrite (proj1 (extractor_run (b :: bs) w)).
      destruct (fst (extract_text_from_pdf (b :: bs) w)); reflexivity.
  - intros Hbytes. unfold parse_resume_node. cbn.
    destruct pdf_bytes as [[ | b bs] | ]; try reflexivity.
    discriminate Hbytes.
Qed.

(** A scanned document next to an empty text: the extractor is called
    and finds nothing.  No bytes next to an empty text: the missing-input
    error. *)
Lemma parse_resume_node_truthiness_witness :
  let R := Demo.runtime Demo.key [] (Demo.pages_reader Demo.scanned_pdf) in
  log (snd (parse_resume_node
              (mkState (Some Demo.some_bytes) (Some EmptyString) "job"
                       None None None) Demo.fresh))
  = Ev_pdf :: log Demo.fresh
  /\ parse_resume_node
       (mkState None (Some EmptyString) "job" None None None) Demo.fresh
     = (Raise (ValueError
                 "Either resume_text or resume_pdf_bytes must be provided"),
        Demo.fresh).
Proof.
  cbn zeta. split.
  - refine (proj2 (proj1 (proj2 (proj2
      (@parse_resume_node_truthiness
         (Demo.runtime Demo.key [] (Demo.pages_reader Demo.scanned_pdf))
         (Some Demo.some_bytes) "job" None None None Demo.fresh)))
      x25 [x50; x44; x46] _)).
    reflexivity.
  - refine (proj2 (proj2 (proj2
      (@parse_resume_node_truthiness
         (Demo.runtime Demo.key [] (Demo.pages_reader Demo.scanned_pdf))
         None "job" None None None Demo.fresh))) _).
    reflexivity.
Defined.

(** C5.  With an empty job text, or with neither bytes nor text of the
    resume, [run_evaluation] raises its ValueError at once: the world is
    the one it was called in, so no node of the graph ran and nothing was
    attempted, let alone retried. *)
Theorem run_evaluation_preconditions {R : Runtime}
        (pdf_bytes : option (list byte)) (text : option string)
        (jd : string) (w : world) :
  jd = EmptyString
  \/ (truthy_bytes pdf_bytes = false /\ truthy_str text = false) ->
  exists msg,
    run_evaluation pdf_bytes text jd w = (Raise (ValueError msg), w)
    /\ (msg = "job_description_text is required"
        \/ msg = "Either resume_pdf_bytes or resume_text must be provided").
Proof.
  intros Hpre. unfold run_evaluation.
  destruct jd as [ | c s].
  - eexists. split; [reflexivity | left; reflexivity].
  - destruct Hpre as [Hjd | [Hbytes Htext]]; [discriminate Hjd | ].
    cbn [truthy_str negb]. rewrite Hbytes, Htext. cbn [negb andb].
    eexists. split; [reflexivity | right; reflexivity].
Qed.

Lemma run_evaluation_preconditions_witness :
  let R := Demo.runtime Demo.key [] (Demo.pages_reader Demo.mixed_pdf) in
  exists msg,
    run_evaluation (Some Demo.some_bytes) None EmptyString Demo.fresh
    = (Raise (ValueError msg), Demo.fresh)
    /\ (msg = "job_description_text is required"
        \/ msg = "Either resume_pdf_bytes or resume_text must be provided").
Proof.
  cbn zeta.
  apply (@run_evaluation_preconditions
           (Demo.runtime Demo.key [] (Demo.pages_reader Demo.mixed_pdf))).
  left. reflexivity.
Defined.

(** C6.  A run that is given PDF bytes and no resume text, and whose PDF
    gives no text, fails; by then the world has seen at most the call of
    the extractor: the service was not called and none of the three
    stages was entered. *)
Theorem run_evaluation_unreadable_pdf {R : Runtime}
        (pdf_bytes : list byte) (text : option string) (jd : string)
        (w : world) :
  truthy_str text = false ->
  pdf_texts pdf_bytes = [] ->
  exists e w',
    run_evaluation (Some pdf_bytes) text jd w = (Raise e, w')
    /\ only_pdf_since w w'
    /\ count Ev_create w' = count Ev_create w
    /\ count Ev_profile w' = count Ev_profile w
    /\ count Ev_job w' = count Ev_job w
    /\ count Ev_fit w' = count Ev_fit w.
Proof.
  intros Htext Hnone.
  assert (Hsame : forall e, exists e0 w',
             (Raise e, w) = (@Raise EvaluationResult e0, w')
             /\ only_pdf_since w w'
             /\ count Ev_create w' = count Ev_create w
             /\ count Ev_profile w' = count Ev_profile w
             /\ count Ev_job w' = count Ev_job w
             /\ count Ev_fit w' = count Ev_fit w).
  { intros e. exists e, w. split; [reflexivity | ].
    split; [exists []; split; [reflexivity | constructor] | ].
    repeat split. }
  unfold run_evaluation.
  destruct jd as [ | c s]; [apply Hsame | ].
  cbn [truthy_str negb]. rewrite Htext. cbn [negb andb].
  destruct pdf_bytes as [ | b bs]; [apply Hsame | ].
  cbn [truthy_bytes negb andb]. cbn zeta.
  unfold get_evaluation_graph, build_evaluation_graph.
  cbn [invoke]. unfold bind at 1. unfold bind at 1.
  unfold parse_resume_node at 1.
  cbn [resume_text resume_pdf_bytes]. rewrite Htext.
  unfold bind at 1.
  destruct (extractor_run (b :: bs) w) as [Hrun Hfail].
  destruct (proj2 Hfail Hnone) as [e He].
  rewrite Hrun, He.
  exists e, (emit Ev_pdf w). split; [reflexivity | ].
  split; [exists [Ev_pdf]; split; [reflexivity | repeat constructor] | ].
  repeat split.
Qed.

Lemma run_evaluation_unreadable_pdf_witness :
  let R := Demo.runtime Demo.key
             [Demo.says Demo.profile_text; Demo.says Demo.job_text;
              Demo.says Demo.score75_unfit]
             (Demo.pages_reader Demo.scanned_pdf) in
  exists e w',
    run_evaluation (Some Demo.some_bytes) None "Engineer wanted" Demo.fresh
    = (Raise e, w')
    /\ only_pdf_since Demo.fresh w'
    /\ count Ev_create w' = count Ev_create Demo.fresh
    /\ count Ev_profile w' = count Ev_profile Demo.fresh
    /\ count Ev_job w' = count Ev_job Demo.fresh
    /\ count Ev_fit w' = count Ev_fit Demo.fresh.
Proof.
  cbn zeta.
  apply (@run_evaluation_unreadable_pdf
           (Demo.runtime Demo.key
              [Demo.says Demo.profile_text; Demo.says Demo.job_text;
               Demo.says Demo.score75_unfit]
              (Demo.pages_reader Demo.scanned_pdf)));
    reflexivity.
Defined.

(* ===================================================================== *)
(** * Runs of the whole pipeline *)
(* ===================================================================== *)

(** The extractor on a document of four pages, of which the second
    cannot be read and the third is blank. *)
Example extract_mixed_pdf :
  @extract_text_from_pdf
    (Demo.runtime Demo.key [] (Demo.pages_reader Demo.mixed_pdf))
    Demo.some_bytes Demo.fresh
  = (Ok "Jane Doe

Skills: Python", World false [Ev_pdf]).
Proof. reflexivity. Qed.

(** A run from PDF bytes in which the job stage needs a second attempt:
    the four nodes run in order, the service is called four times, and
    the flag of the result follows the score of 40 although the service
    reported a fit. *)
Example run_evaluation_from_pdf :
  let R := Demo.runtime Demo.key
             [Demo.says Demo.profile_text; Demo.says "oops";
              Demo.says Demo.job_text; Demo.says Demo.score40_fit]
             (Demo.pages_reader Demo.mixed_pdf) in
  run_evaluation (Some Demo.some_bytes) None "Engineer wanted" Demo.fresh
  = (Ok (mkEvaluationResult R Demo.profile_doc Demo.job_doc
           (mkFitEvaluation 40 false "major gaps" [] [] [] [] [])),
     World true [Ev_create; Ev_fit; Ev_create; Ev_sleep 2; Ev_create;
                 Ev_job; Ev_create; Ev_profile; Ev_pdf]).
Proof. vm_compute. reflexivity. Qed.

(** A run whose profile stage receives malformed JSON three times stops
    there: the job and fit stages are not entered. *)
Example run_evaluation_profile_exhausted :
  let R := Demo.runtime Demo.key
             [Demo.says "a"; Demo.says "b"; Demo.says "c";
              Demo.says Demo.job_text; Demo.says Demo.score75_unfit]
             (Demo.pages_reader []) in
  run_evaluation None (Some "Jane Doe, engineer") "Engineer wanted" Demo.fresh
  = (Raise (RetryError (ValueError
       "Failed to parse JSON response: Expecting value: line 1 column 1 (char 0). Response: c")),
     World true [Ev_create; Ev_sleep 2; Ev_create; Ev_sleep 2; Ev_create;
                 Ev_profile]).
Proof. vm_compute. reflexivity. Qed.

(* ===================================================================== *)
(** * Further properties: one call of the client *)
(* ===================================================================== *)

Lemma seconds_app (a b : list event) :
  seconds (a ++ b) = (seconds a + seconds b)%Z.
Proof.
  induction a as [ | ev a IH]; [reflexivity | ].
  destruct ev; cbn; rewrite IH; lia.
Qed.

Lemma count_entry_attempts (ev : event) (b : bool) (k : nat)
      (l : list event) :
  entry ev = true ->
  count ev (World b (attempts_log k ++ l)) = count ev (World b l).
Proof.
  intros Hev. rewrite count_app.
  assert (Hnone : forall evs,
             Forall (fun x => entry x = false) evs ->
             length (filter (event_eqb ev) evs) = 0%nat).
  { induction 1 as [ | x evs Hx _ IH]; [reflexivity | ].
    cbn. destruct ev, x; try discriminate; cbn; exact IH. }
  rewrite Hnone; [reflexivity | ].
  clear Hnone. destruct k as [ | k]; [constructor | ].
  induction k as [ | k IH]; [repeat constructor | ].
  change (attempts_log (S (S k)))
    with (Ev_create :: Ev_sleep (backoff (S k)) :: attempts_log (S k)).
  constructor; [reflexivity | ].
  constructor; [reflexivity | exact IH].
Qed.

Lemma count_create_attempts (b : bool) (k : nat) (l : list event) :
  count Ev_create (World b (attempts_log k ++ l))
  = (k + count Ev_create (World b l))%nat.
Proof.
  rewrite count_app. f_equal.
  destruct k as [ | k]; [reflexivity | ].
  induction k as [ | k IH]; [reflexivity | ].
  change (attempts_log (S (S k)))
    with (Ev_create :: Ev_sleep (backoff (S k)) :: attempts_log (S k)).
  cbn [filter event_eqb length]. now rewrite IH.
Qed.

Lemma backoff_first_two : backoff 1 = 2%Z /\ backoff 2 = 2%Z.
Proof. split; reflexivity. Qed.

Lemma attempt_outcome_ok {R : Runtime} {T : Type} (u : @verdict T) (v : T) :
  attempt_outcome u = Ok v -> u = Conforming v.
Proof.
  destruct u; cbn; intros [=]. now subst.
Qed.

Section CallEffects.
Context {R : Runtime} {T : Type}.
Variable schema : string.
Variable model_validate : json -> string + T.
Variables system_prompt user_content model : string.
Variable temperature : Q.

Let req : request :=
  completion_request schema system_prompt user_content model temperature.
Let call : M T :=
  structured_completion schema model_validate system_prompt user_content
                        model temperature.

(** Without a client and without a key the call raises the error of
    config.py in the world it was made in. *)
Lemma structured_completion_key_error (w : world) :
  client_ready w = false ->
  call w = (Raise (ValueError key_message), w).
Proof.
  unfold call, structured_completion, bind, client_ready, get_openai_client,
    get_openai_api_key, key_message.
  destruct w as [[ | ] l]; cbn; [discriminate | ].
  destruct OPENAI_API_KEY as [[ | c s] | ]; cbn;
    intros Hk; try discriminate Hk; reflexivity.
Qed.

(** With a client, the call makes [k] attempts, between one and three: it
    returns the value of the [k]-th reply, the first that conforms, or
    after the third failure it raises the RetryError of that failure. *)
Lemma structured_completion_attempts (w : world) :
  client_ready w = true ->
  exists k,
    (1 <= k <= 3)%nat
    /\ snd (call w) = World true (attempts_log k ++ log w)
    /\ (forall i, (i < k - 1)%nat ->
          exists e, attempt_outcome
                      (classify model_validate
                         (chat_completions_create (count Ev_create w + i) req))
                    = Raise e)
    /\ ((exists v, fst (call w) = Ok v
                   /\ classify model_validate
                        (chat_completions_create (count Ev_create w + (k - 1))
                           req) = Conforming v)
        \/ (k = 3%nat
            /\ exists e, fst (call w) = Raise (RetryError e)
                         /\ is_ValueError e = true
                         /\ attempt_outcome
                              (classify model_validate
                                 (chat_completions_create
                                    (count Ev_create w + 2) req))
                            = Raise e)).
Proof.
  intros Hready. unfold call, req.
  rewrite structured_completion_verdicts by exact Hready.
  cbn zeta. unfold run_by_verdicts.
  set (n := count Ev_create w).
  set (rq := completion_request schema system_prompt user_content model
                                temperature).
  destruct (attempt_outcome
              (classify model_validate (chat_completions_create n rq)))
    as [v1 | e1] eqn:H1.
  { exists 1%nat. split; [lia | ]. split; [reflexivity | ].
    split; [intros i Hi; cbn in Hi; lia | ].
    left. exists v1. split; [reflexivity | ].
    replace (n + (1 - 1))%nat with n by lia.
    exact (attempt_outcome_ok _ _ H1). }
  destruct (attempt_outcome
              (classify model_validate (chat_completions_create (S n) rq)))
    as [v2 | e2] eqn:H2.
  { exists 2%nat. split; [lia | ]. split; [reflexivity | ].
    split.
    - intros i Hi. assert (i = 0%nat) as -> by (cbn in Hi; lia).
      replace (n + 0)%nat with n by lia. now exists e1.
    - left. exists v2. split; [reflexivity | ].
      replace (n + (2 - 1))%nat with (S n) by lia.
      exact (attempt_outcome_ok _ _ H2). }
  exists 3%nat. split; [lia | ]. split; [reflexivity | ].
  split.
  - intros i Hi.
    assert (i = 0 \/ i = 1)%nat as [-> | ->] by (cbn in Hi; lia).
    + replace (n + 0)%nat with n by lia. now exists e1.
    + replace (n + 1)%nat with (S n) by lia. now exists e2.
  - replace (n + (3 - 1))%nat with (S (S n)) by lia.
    replace (n + 2)%nat with (S (S n)) by lia.
    destruct (attempt_outcome
                (classify model_validate
                   (chat_completions_create (S (S n)) rq)))
      as [v3 | e3] eqn:H3.
    + left. exists v3. split; [reflexivity | ].
      exact (attempt_outcome_ok _ _ H3).
    + right. split; [reflexivity | ]. exists e3.
      split; [reflexivity | ]. split; [ | reflexivity].
      exact (attempt_outcome_retryable _ _ H3).
Qed.

(** The seconds a run of [k] attempts sleeps. *)
Lemma seconds_attempts (k : nat) :
  (1 <= k <= 3)%nat ->
  seconds (attempts_log k) = (2 * (Z.of_nat k - 1))%Z.
Proof.
  intros Hk.
  assert (k = 1 \/ k = 2 \/ k = 3)%nat as [-> | [-> | ->]] by lia;
    reflexivity.
Qed.

End CallEffects.

(* ===================================================================== *)
(** * Further properties: the stages *)
(* ===================================================================== *)

Lemma count_emit (ev stage : event) (w : world) :
  count ev (emit stage w)
  = (count ev w + if event_eqb ev stage then 1 else 0)%nat.
Proof.
  unfold count, emit. cbn. destruct (event_eqb ev stage); cbn; lia.
Qed.

Lemma slept_emit_entry (stage : event) (w : world) :
  entry stage = true -> slept (emit stage w) = slept w.
Proof.
  destruct stage; try discriminate; reflexivity.
Qed.

Lemma count_create_emit_entry (stage : event) (w : world) :
  entry stage = true -> count Ev_create (emit stage w) = count Ev_create w.
Proof.
  destruct stage; try discriminate; reflexivity.
Qed.

(** A stage is: log the entry, then make the generation call. *)
Lemma stage_effect_call {R : Runtime} {T : Type} (schema : string)
      (model_validate : json -> string + T)
      (system_prompt user_content model : string) (temperature : Q)
      (stage : event) (w : world) :
  entry stage = true ->
  stage_effect stage w
    ((tell stage ;;;
      structured_completion schema model_validate system_prompt user_content
                            model temperature) w).
Proof.
  intros Hstage. unfold bind, tell.
  assert (Hcount0 : forall ev, count ev (emit stage w)
                    = (count ev w + if event_eqb ev stage then 1 else 0)%nat)
    by (intros ev; apply count_emit).
  pose proof (count_create_emit_entry stage w Hstage) as Hcreate0.
  pose proof (slept_emit_entry stage w Hstage) as Hslept0.
  destruct (client_ready w) eqn:Hready.
  - assert (Hready' : client_ready (emit stage w) = true) by exact Hready.
    destruct (structured_completion_attempts schema model_validate
                system_prompt user_content model temperature
                (emit stage w) Hready')
      as (k & Hk & Hsnd & _ & Hfst).
    destruct (structured_completion _ _ _ _ _ _ (emit stage w))
      as [r w1] eqn:Hrun.
    cbn [fst snd] in *. subst w1.
    assert (Hcreate : count Ev_create (World true (attempts_log k
                                                   ++ log (emit stage w)))
                      = (k + count Ev_create w)%nat).
    { rewrite count_create_attempts. f_equal. exact Hcreate0. }
    unfold stage_effect. cbn [fst snd].
    split.
    { intros ev Hev. rewrite count_entry_attempts by exact Hev.
      exact (Hcount0 ev). }
    split; [rewrite Hcreate; lia | ].
    split.
    { unfold slept in *. cbn [log] in *. rewrite seconds_app, Hslept0.
      rewrite seconds_attempts by exact Hk. lia. }
    split; [reflexivity | ].
    destruct Hfst as [(v & -> & _) | (-> & e & -> & He & _)].
    + split; [reflexivity | rewrite Hcreate; lia].
    + right. exists e. split; [reflexivity | ]. split; [exact He | ].
      rewrite Hcreate. lia.
  - assert (Hready' : client_ready (emit stage w) = false) by exact Hready.
    rewrite (structured_completion_key_error schema model_validate
               system_prompt user_content model temperature
               (emit stage w) Hready').
    unfold stage_effect. cbn [fst snd].
    split; [intros ev _; exact (Hcount0 ev) | ].
    split; [rewrite Hcreate0; lia | ].
    split; [rewrite Hslept0; lia | ].
    split; [intros Hf; congruence | ].
    left. split; [reflexivity | ]. split; [exact Hcreate0 | exact Hready].
Qed.

Lemma extract_candidate_profile_effect {R : Runtime} (text : string)
      (w : world) :
  stage_effect Ev_profile w (extract_candidate_profile text w).
Proof.
  unfold extract_candidate_profile. cbn zeta.
  now apply stage_effect_call.
Qed.

Lemma extract_job_description_effect {R : Runtime} (text : string)
      (w : world) :
  stage_effect Ev_job w (extract_job_description text w).
Proof.
  unfold extract_job_description. cbn zeta.
  now apply stage_effect_call.
Qed.

(** The fit stage adds to the call the recomputation of the flag: what it
    returns has the flag of its score, and a score within the range. *)
Lemma evaluate_fit_effect {R : Runtime} (profile : CandidateProfile)
      (job : JobDescription) (w : world) :
  stage_effect Ev_fit w (evaluate_fit profile job w)
  /\ (forall ev, fst (evaluate_fit profile job w) = Ok ev ->
        is_fit ev = (70 <=? fit_score ev)%Z
        /\ (0 <= fit_score ev <= 100)%Z).
Proof.
  split.
  - pose proof (stage_effect_call FitEvaluation_schema
                  FitEvaluation_model_validate
                  "You are an expert recruiter evaluating a candidate's fit for a job.
Analyze the candidate profile against the job description and provide a comprehensive evaluation.
The fit_score should be an integer from 0 to 100 representing the overall fit.
Set is_fit to true if fit_score >= 70, false otherwise.
Be thorough in identifying strengths, gaps, and providing actionable recommendations."
                  ("Evaluate the candidate's fit for this job:

CANDIDATE PROFILE:
" ++ CandidateProfile_model_dump_json profile ++ "

JOB DESCRIPTION:
" ++ JobDescription_model_dump_json job ++ "

Provide a detailed evaluation including:
- Fit score (0-100)
- Whether they are a fit (score >= 70)
- Summary of fit
- Key strengths
- Gaps or missing qualifications
- Recommendations for improvement
- Missing keywords from the job description
- Any risk flags or concerns")
                  default_model default_temperature Ev_fit w eq_refl)
      as Hcall.
    unfold evaluate_fit. cbn zeta. unfold bind, tell, ret in *.
    destruct (structured_completion _ _ _ _ _ _ (emit Ev_fit w))
      as [[raw | e] w1]; exact Hcall.
  - intros ev Hev.
    destruct (evaluate_fit profile job w) as [r w'] eqn:Hrun.
    cbn [fst] in Hev. subst r.
    destruct (fit_stage_output profile job w w' ev Hrun)
      as (j & raw & Hj & ->).
    split; [reflexivity | ].
    cbn [set_is_fit fit_score].
    unfold FitEvaluation_model_validate in Hj.
    destruct (FitEvaluation_validate j) as [es | ev'] eqn:Hv; [discriminate | ].
    injection Hj as ->.
    exact (proj1 (FitEvaluation_validate_score _ _ Hv)).
Qed.

(* ===================================================================== *)
(** * Further properties: the pipeline *)
(* ===================================================================== *)

Lemma readable_texts_nonempty (pages : list (exn + string)) :
  Forall (fun t => exists c s, t = String c s) (readable_texts pages).
Proof.
  induction pages as [ | page pages IH]; [constructor | ].
  destruct page as [e | [ | c s]]; cbn; try exact IH.
  constructor; [now exists c, s | exact IH].
Qed.

(** The extractor returns a text that is not empty, or raises a ValueError
    whose message starts with one of its two prefixes. *)
Lemma extractor_outcome {R : Runtime} (pdf_bytes : list byte) (w : world) :
  snd (extract_text_from_pdf pdf_bytes w) = emit Ev_pdf w
  /\ match fst (extract_text_from_pdf pdf_bytes w) with
     | Ok text => exists c s, text = String c s
     | Raise e => exists x, e = ValueError ("Failed to read PDF: " ++ x)
                            \/ e = ValueError
                                     ("Unexpected error parsing PDF: " ++ x)
     end.
Proof.
  unfold extract_text_from_pdf, bind, tell, try_except, lift.
  destruct (PdfReader pdf_bytes) as [e | pages]; cbn.
  - split; [destruct (is_PdfReadError e); reflexivity | ].
    destruct (is_PdfReadError e); cbn; exists (str e); [left | right];
      reflexivity.
  - rewrite fold_visit_page. cbn [app].
    pose proof (readable_texts_nonempty pages) as Hne.
    destruct (readable_texts pages) as [ | t ts]; cbn.
    + split; [reflexivity | ].
      exists "No text could be extracted from the PDF". right. reflexivity.
    + split; [reflexivity | ].
      inversion Hne as [ | ? ? (c & s & ->) _]; subst.
      destruct ts; cbn; eexists; eexists; reflexivity.
Qed.

(** The three generation stages, run on a state that has a text and a job
    text and no output yet. *)
Lemma stages_after_text {R : Runtime} (bytes : option (list byte))
      (c : ascii) (s : string) (c' : ascii) (s' : string) (w1 : world) :
  let st1 := mkState bytes (Some (String c s)) (String c' s')
                     None None None in
  let r := invoke [profile_node; job_node; evaluate_node] st1 w1 in
  exists b f : nat,
    count Ev_pdf (snd r) = count Ev_pdf w1
    /\ count Ev_profile (snd r) = (count Ev_profile w1 + 1)%nat
    /\ count Ev_job (snd r) = (count Ev_job w1 + b)%nat
    /\ count Ev_fit (snd r) = (count Ev_fit w1 + f)%nat
    /\ (f <= b <= 1)%nat
    /\ (count Ev_create w1 <= count Ev_create (snd r)
        <= count Ev_create w1 + 3 * (1 + b + f))%nat
    /\ (slept w1 <= slept (snd r) <= slept w1 + 4 * Z.of_nat (1 + b + f))%Z
    /\ match fst r with
       | Ok st4 =>
           b = 1%nat /\ f = 1%nat
           /\ (count Ev_create w1 + 3 <= count Ev_create (snd r))%nat
           /\ client_ready (snd r) = true
           /\ exists p j e,
               st4 = mkState bytes (Some (String c s)) (String c' s')
                             (Some p) (Some j) (Some e)
               /\ is_fit e = (70 <=? fit_score e)%Z
               /\ (0 <= fit_score e <= 100)%Z
       | Raise e =>
           (e = ValueError key_message
            /\ count Ev_create (snd r) = count Ev_create w1
            /\ b = 0%nat /\ client_ready w1 = false)
           \/ (exists e3, e = RetryError e3 /\ is_ValueError e3 = true
                          /\ (count Ev_create w1 + 3
                              <= count Ev_create (snd r))%nat)
       end.
Proof.
  cbn zeta.
  remember (invoke [profile_node; job_node; evaluate_node]
                   (mkState bytes (Some (String c s)) (String c' s')
                            None None None) w1) as r eqn:Hr.
  cbn [invoke] in Hr.
  unfold profile_node, job_node, evaluate_node in Hr.
  unfold bind, ret in Hr. cbn [resume_text] in Hr.
  pose proof (extract_candidate_profile_effect (String c s) w1) as Hp.
  destruct (extract_candidate_profile (String c s) w1) as [[p | e] w2].
  2:{ subst r. destruct Hp as (Hc & Hcr & Hsl & _ & Hout). cbn [fst snd] in *.
      exists 0%nat, 0%nat.
      rewrite (Hc Ev_pdf eq_refl), (Hc Ev_profile eq_refl),
        (Hc Ev_job eq_refl), (Hc Ev_fit eq_refl). cbn [event_eqb].
      repeat (split; [lia | ]).
      destruct Hout as [(-> & Hsame & Hnr) | (e3 & -> & He3 & Hthree)].
      - left. repeat split; [exact Hsame | exact Hnr].
      - right. exists e3. repeat split; [exact He3 | lia]. }
  destruct Hp as (Hc & Hcr & Hsl & _ & Hready2 & Hpos). cbn [fst snd] in *.
  pose proof (Hc Ev_pdf eq_refl) as Hp1.
  pose proof (Hc Ev_profile eq_refl) as Hp2.
  pose proof (Hc Ev_job eq_refl) as Hp3.
  pose proof (Hc Ev_fit eq_refl) as Hp4. cbn [event_eqb] in Hp1, Hp2, Hp3, Hp4.
  clear Hc.
  cbn [job_description_text set_candidate_profile] in Hr.
  pose proof (extract_job_description_effect (String c' s') w2) as Hj.
  destruct (extract_job_description (String c' s') w2) as [[j | e] w3].
  2:{ subst r. destruct Hj as (Hc & Hcr' & Hsl' & _ & Hout).
      cbn [fst snd] in *.
      exists 1%nat, 0%nat.
      rewrite (Hc Ev_pdf eq_refl), (Hc Ev_profile eq_refl),
        (Hc Ev_job eq_refl), (Hc Ev_fit eq_refl). cbn [event_eqb].
      repeat (split; [lia | ]).
      destruct Hout as [(_ & _ & Hnr) | (e3 & -> & He3 & Hthree)].
      - congruence.
      - right. exists e3. repeat split; [exact He3 | lia]. }
  destruct Hj as (Hc & Hcr' & Hsl' & _ & Hready3 & Hpos'). cbn [fst snd] in *.
  pose proof (Hc Ev_pdf eq_refl) as Hj1.
  pose proof (Hc Ev_profile eq_refl) as Hj2.
  pose proof (Hc Ev_job eq_refl) as Hj3.
  pose proof (Hc Ev_fit eq_refl) as Hj4. cbn [event_eqb] in Hj1, Hj2, Hj3, Hj4.
  clear Hc.
  cbn [candidate_profile job_description set_job_description
       set_candidate_profile] in Hr.
  destruct (evaluate_fit_effect p j w3) as [Hf Hinv].
  destruct (evaluate_fit p j w3) as [[ev | e] w4].
  2:{ subst r. destruct Hf as (Hc & Hcr'' & Hsl'' & _ & Hout).
      cbn [fst snd] in *.
      exists 1%nat, 1%nat.
      rewrite (Hc Ev_pdf eq_refl), (Hc Ev_profile eq_refl),
        (Hc Ev_job eq_refl), (Hc Ev_fit eq_refl). cbn [event_eqb].
      repeat (split; [lia | ]).
      destruct Hout as [(_ & _ & Hnr) | (e3 & -> & He3 & Hthree)].
      - congruence.
      - right. exists e3. repeat split; [exact He3 | lia]. }
  subst r. destruct Hf as (Hc & Hcr'' & Hsl'' & _ & Hready4 & Hpos'').
  cbn [fst snd] in *.
  exists 1%nat, 1%nat.
  rewrite (Hc Ev_pdf eq_refl), (Hc Ev_profile eq_refl),
    (Hc Ev_job eq_refl), (Hc Ev_fit eq_refl). cbn [event_eqb].
  repeat (split; [lia | ]).
  split; [exact Hready4 | ].
  exists p, j, ev. split; [reflexivity | ]. exact (Hinv ev eq_refl).
Qed.

(** A run, whatever it is given: which of the extractor and the stages it
    entered, how much it called the service and slept, and what it
    returned or raised. *)
Lemma run_evaluation_effect {R : Runtime} (bytes : option (list byte))
      (text : option string) (jd : string) (w : world) :
  let r := run_evaluation bytes text jd w in
  exists p a b f : nat,
    count Ev_pdf (snd r) = (count Ev_pdf w + p)%nat
    /\ count Ev_profile (snd r) = (count Ev_profile w + a)%nat
    /\ count Ev_job (snd r) = (count Ev_job w + b)%nat
    /\ count Ev_fit (snd r) = (count Ev_fit w + f)%nat
    /\ (p <= 1)%nat /\ (f <= b <= a)%nat /\ (a <= 1)%nat
    /\ (truthy_str text = true -> p = 0%nat)
    /\ (count Ev_create w <= count Ev_create (snd r)
        <= count Ev_create w + 3 * (a + b + f))%nat
    /\ (slept w <= slept (snd r) <= slept w + 4 * Z.of_nat (a + b + f))%Z
    /\ match fst r with
       | Ok res =>
           a = 1%nat /\ b = 1%nat /\ f = 1%nat
           /\ (count Ev_create w + 3 <= count Ev_create (snd r))%nat
           /\ client_ready (snd r) = true
           /\ is_fit (Schemas.evaluation res)
              = (70 <=? fit_score (Schemas.evaluation res))%Z
           /\ (0 <= fit_score (Schemas.evaluation res) <= 100)%Z
       | Raise e =>
           (exists msg, e = ValueError msg /\ input_message msg
                        /\ a = 0%nat
                        /\ count Ev_create (snd r) = count Ev_create w)
           \/ (e = ValueError key_message /\ a = 1%nat /\ b = 0%nat
               /\ count Ev_create (snd r) = count Ev_create w
               /\ client_ready w = false)
           \/ (exists e3, e = RetryError e3 /\ is_ValueError e3 = true
                          /\ a = 1%nat
                          /\ (count Ev_create w + 3
                              <= count Ev_create (snd r))%nat)
       end.
Proof.
  cbn zeta.
  remember (run_evaluation bytes text jd w) as r eqn:Hr.
  assert (Hearly : forall msg,
             input_message msg ->
             exists p a b f : nat,
               count Ev_pdf w = (count Ev_pdf w + p)%nat
               /\ count Ev_profile w = (count Ev_profile w + a)%nat
               /\ count Ev_job w = (count Ev_job w + b)%nat
               /\ count Ev_fit w = (count Ev_fit w + f)%nat
               /\ (p <= 1)%nat /\ (f <= b <= a)%nat /\ (a <= 1)%nat
               /\ (truthy_str text = true -> p = 0%nat)
               /\ (count Ev_create w <= count Ev_create w
                   <= count Ev_create w + 3 * (a + b + f))%nat
               /\ (slept w <= slept w <= slept w + 4 * Z.of_nat (a + b + f))%Z
               /\ ((exists msg0, ValueError msg = ValueError msg0
                                 /\ input_message msg0 /\ a = 0%nat
                                 /\ count Ev_create w = count Ev_create w)
                   \/ (ValueError msg = ValueError key_message /\ a = 1%nat
                       /\ b = 0%nat
                       /\ count Ev_create w = count Ev_create w
                       /\ client_ready w = false)
                   \/ (exists e3, ValueError msg = RetryError e3
                                  /\ is_ValueError e3 = true /\ a = 1%nat
                                  /\ (count Ev_create w + 3
                                      <= count Ev_create w)%nat))).
  { intros msg Hmsg. exists 0%nat, 0%nat, 0%nat, 0%nat.
    repeat (split; [first [lia | congruence] | ]). left. exists msg. now repeat split. }
  unfold run_evaluation in Hr.
  destruct jd as [ | c' s'].
  { subst r. cbn [fst snd]. apply Hearly. left. reflexivity. }
  cbn [truthy_str negb] in Hr.
  destruct (negb (truthy_bytes bytes) && negb (truthy_str text)) eqn:Hpre.
  { subst r. cbn [fst snd]. apply Hearly. right. left. reflexivity. }
  clear Hearly. cbn zeta in Hr.
  unfold get_evaluation_graph, build_evaluation_graph in Hr.
  change (invoke [parse_resume_node; profile_node; job_node; evaluate_node]
                 (mkState bytes text (String c' s') None None None))
    with (bind (parse_resume_node
                  (mkState bytes text (String c' s') None None None))
               (invoke [profile_node; job_node; evaluate_node])) in Hr.
  unfold bind, ret in Hr.
  (* the state and the world after the first node *)
  assert (Hparse :
            (exists c s, text = Some (String c s)
                         /\ parse_resume_node
                              (mkState bytes text (String c' s')
                                       None None None) w
                            = (Ok (mkState bytes (Some (String c s))
                                           (String c' s') None None None), w))
            \/ (truthy_str text = false
                /\ snd (parse_resume_node
                          (mkState bytes text (String c' s') None None None) w)
                   = emit Ev_pdf w
                /\ match fst (parse_resume_node
                                (mkState bytes text (String c' s')
                                         None None None) w) with
                   | Ok st1 => exists c s,
                       st1 = mkState bytes (Some (String c s)) (String c' s')
                                     None None None
                   | Raise e => exists msg, e = ValueError msg
                                            /\ input_message msg
                   end)).
  { unfold parse_resume_node. cbn [resume_text resume_pdf_bytes].
    destruct (truthy_str text) eqn:Htext.
    - left. destruct text as [[ | c s] | ]; try discriminate Htext.
      now exists c, s.
    - right. split; [reflexivity | ].
      destruct bytes as [[ | x xs] | ]; try discriminate Hpre.
      unfold bind.
      destruct (extractor_outcome (x :: xs) w) as [Hsnd Hfst].
      destruct (extract_text_from_pdf (x :: xs) w) as [[t | e] w1];
        cbn [fst snd] in *; subst w1.
      + split; [reflexivity | ]. destruct Hfst as (c & s & ->).
        now exists c, s.
      + split; [reflexivity | ]. destruct Hfst as [x0 [-> | ->]];
          eexists; (split; [reflexivity | ]).
        * right. right. left. now exists x0.
        * right. right. right. now exists x0. }
  destruct Hparse as [(c & s & Htext & Hp) | (Htext & Hsnd & Hfst)].
  - (* the text was given *)
    rewrite Hp in Hr.
    destruct (stages_after_text bytes c s c' s' w)
      as (b & f & H1 & H2 & H3 & H4 & Hbf & Hcr & Hsl & Hout).
    cbn zeta in *.
    destruct (invoke [profile_node; job_node; evaluate_node] _ w)
      as [[st4 | e] w4]; cbn [fst snd] in *.
    + destruct Hout as (-> & -> & Hthree & Hready & p & j & ev & -> & Hfit).
      cbn [Graph.candidate_profile Graph.job_description Graph.evaluation]
        in Hr.
      subst r. cbn [fst snd Schemas.evaluation].
      exists 0%nat, 1%nat, 1%nat, 1%nat.
      repeat (split; [first [lia | congruence] | ]).
      exact Hfit.
    + subst r. cbn [fst snd]. exists 0%nat, 1%nat, b, f.
      repeat (split; [first [lia | congruence] | ]).
      destruct Hout as [(-> & Hsame & -> & Hnr) | (e3 & -> & He3 & Hthree)].
      * right. left. now repeat split.
      * right. right. exists e3. now repeat split.
  - (* the text comes from the PDF *)
    destruct (parse_resume_node _ w) as [[st1 | e] w1]; cbn [fst snd] in *;
      subst w1.
    + destruct Hfst as (c & s & ->).
      destruct (stages_after_text bytes c s c' s' (emit Ev_pdf w))
        as (b & f & H1 & H2 & H3 & H4 & Hbf & Hcr & Hsl & Hout).
      cbn zeta in *.
      change (count Ev_pdf (emit Ev_pdf w)) with (S (count Ev_pdf w)) in H1.
      change (count Ev_profile (emit Ev_pdf w)) with (count Ev_profile w)
        in H2.
      change (count Ev_job (emit Ev_pdf w)) with (count Ev_job w) in H3.
      change (count Ev_fit (emit Ev_pdf w)) with (count Ev_fit w) in H4.
      change (count Ev_create (emit Ev_pdf w)) with (count Ev_create w) in *.
      change (slept (emit Ev_pdf w)) with (slept w) in *.
      change (client_ready (emit Ev_pdf w)) with (client_ready w) in *.
      destruct (invoke [profile_node; job_node; evaluate_node] _
                       (emit Ev_pdf w))
        as [[st4 | e] w4]; cbn [fst snd] in *.
      * destruct Hout as (-> & -> & Hthree & Hready & p & j & ev & -> & Hfit).
        cbn [Graph.candidate_profile Graph.job_description Graph.evaluation]
          in Hr.
        subst r. cbn [fst snd Schemas.evaluation].
        exists 1%nat, 1%nat, 1%nat, 1%nat.
        repeat (split; [first [lia | congruence] | ]).
        exact Hfit.
      * subst r. cbn [fst snd]. exists 1%nat, 1%nat, b, f.
        repeat (split; [first [lia | congruence] | ]).
        destruct Hout as [(-> & Hsame & -> & Hnr) | (e3 & -> & He3 & Hthree)].
        -- right. left. now repeat split.
        -- right. right. exists e3. now repeat split.
    + destruct Hfst as (msg & -> & Hmsg). subst r. cbn [fst snd].
      exists 1%nat, 0%nat, 0%nat, 0%nat.
      change (count Ev_pdf (emit Ev_pdf w)) with (S (count Ev_pdf w)).
      change (count Ev_profile (emit Ev_pdf w)) with (count Ev_profile w).
      change (count Ev_job (emit Ev_pdf w)) with (count Ev_job w).
      change (count Ev_fit (emit Ev_pdf w)) with (count Ev_fit w).
      change (count Ev_create (emit Ev_pdf w)) with (count Ev_create w).
      change (slept (emit Ev_pdf w)) with (slept w).
      repeat (split; [first [lia | congruence] | ]).
      left. exists msg. now repeat split.
Qed.

(* ===================================================================== *)
(** * Further properties: statements *)
(* ===================================================================== *)

(** X1.  A call of the client ends in one of three ways and no other.
    Without a client and without a key it raises the ValueError of
    config.py and leaves the world as it is.  Otherwise it makes [k]
    calls of the service, one to three, logged with the waits between
    them, and either returns the value of the [k]-th reply, which is the
    first that conforms to the schema, or, after the third, raises a
    RetryError holding a ValueError. *)
Theorem structured_completion_outcomes {R : Runtime} {T : Type}
        (schema : string) (model_validate : json -> string + T)
        (system_prompt user_content model : string) (temperature : Q)
        (w : world) :
  let req := completion_request schema system_prompt user_content model
                                temperature in
  let verdict_at i := classify model_validate
                        (chat_completions_create (count Ev_create w + i) req) in
  let run := structured_completion schema model_validate system_prompt
                                   user_content model temperature w in
  (client_ready w = false /\ run = (Raise (ValueError key_message), w))
  \/ (client_ready w = true
      /\ exists k,
          (1 <= k <= 3)%nat
          /\ log (snd run) = (attempts_log k ++ log w)%list
          /\ count Ev_create (snd run) = (count Ev_create w + k)%nat
          /\ (forall i v, (i < k - 1)%nat -> verdict_at i <> Conforming v)
          /\ ((exists v, fst run = Ok v
                         /\ verdict_at (k - 1)%nat = Conforming v)
              \/ (k = 3%nat
                  /\ exists e, fst run = Raise (RetryError e)
                               /\ is_ValueError e = true))).
Proof.
  cbn zeta. destruct (client_ready w) eqn:Hready.
  - right. split; [reflexivity | ].
    destruct (structured_completion_attempts schema model_validate
                system_prompt user_content model temperature w Hready)
      as (k & Hk & Hsnd & Hbefore & Hfst).
    exists k. split; [exact Hk | ].
    split; [rewrite Hsnd; reflexivity | ].
    split.
    { rewrite Hsnd, count_create_attempts.
      change (count Ev_create (World true (log w))) with (count Ev_create w).
      lia. }
    split.
    { intros i v Hi Hconf. destruct (Hbefore i Hi) as [e He].
      rewrite Hconf in He. discriminate He. }
    destruct Hfst as [(v & Hv & Hconf) | (-> & e & He & Hval & _)].
    + left. now exists v.
    + right. split; [reflexivity | ]. now exists e.
  - left. split; [reflexivity | ].
    now apply structured_completion_key_error.
Qed.

(** X2.  A call sleeps two seconds between two consecutive calls of the
    service and at no other time: the seconds it adds are twice the
    number of calls it made less one, hence never more than four. *)
Theorem structured_completion_sleeps {R : Runtime} {T : Type}
        (schema : string) (model_validate : json -> string + T)
        (system_prompt user_content model : string) (temperature : Q)
        (w : world) :
  let run := structured_completion schema model_validate system_prompt
                                   user_content model temperature w in
  let calls := (count Ev_create (snd run) - count Ev_create w)%nat in
  slept (snd run) = (slept w + 2 * Z.of_nat (pred calls))%Z
  /\ (slept w <= slept (snd run) <= slept w + 4)%Z.
Proof.
  cbn zeta. destruct (client_ready w) eqn:Hready.
  - destruct (structured_completion_attempts schema model_validate
                system_prompt user_content model temperature w Hready)
      as (k & Hk & Hsnd & _ & _).
    rewrite Hsnd, count_create_attempts.
    change (count Ev_create (World true (log w))) with (count Ev_create w).
    unfold slept. cbn [log]. rewrite seconds_app.
    rewrite seconds_attempts by exact Hk.
    replace (k + count Ev_create w - count Ev_create w)%nat with k by lia.
    lia.
  - rewrite (structured_completion_key_error schema model_validate
               system_prompt user_content model temperature w Hready).
    cbn [snd]. rewrite Nat.sub_diag. cbn. lia.
Qed.

(** X3.  The wait the decorator is configured with lies between 2 and 10
    seconds for every attempt number, never decreases from one attempt to
    a later one, and is 10 seconds from the fifth attempt on. *)
Theorem wait_exponential_bounds (n m : nat) :
  (2 <= wait_exponential 1 2 10 n <= 10)%Z
  /\ ((n <= m)%nat -> (wait_exponential 1 2 10 n <= wait_exponential 1 2 10 m)%Z)
  /\ ((5 <= n)%nat -> wait_exponential 1 2 10 n = 10%Z).
Proof.
  unfold wait_exponential. change (Z.max 0 2) with 2%Z.
  split; [lia | ]. split.
  - intros Hnm.
    assert (Hpow : (2 ^ (Z.of_nat n - 1) <= 2 ^ (Z.of_nat m - 1))%Z).
    { destruct n as [ | n].
      - cbn [Z.of_nat Z.sub Z.add Z.opp Z.pow]. 
        change (2 ^ (0 - 1))%Z with 0%Z. apply Z.pow_nonneg. lia.
      - apply Z.pow_le_mono_r; lia. }
    lia.
  - intros Hn.
    assert (Hpow : (2 ^ 4 <= 2 ^ (Z.of_nat n - 1))%Z)
      by (apply Z.pow_le_mono_r; lia).
    change (2 ^ 4)%Z with 16%Z in Hpow. lia.
Qed.

Lemma defaulted_absent {A} (conv : json -> option A)
      (type_error : string) (default : A) (name : string)
      (ms : list (string * json)) (a : A) :
  defaulted conv type_error default name ms = inr a ->
  match member name ms with
  | None => a = default
  | Some x => conv x = Some a
  end.
Proof.
  unfold defaulted. destruct (member name ms) as [x | ].
  - destruct (conv x) as [a' | ]; [ | discriminate]. now intros [= ->].
  - now intros [= ->].
Qed.

Lemma required_absent {A} (conv : json -> option A)
      (type_error name : string) (ms : list (string * json)) :
  member name ms = None ->
  required conv type_error name ms = inl [(name, "missing")].
Proof.
  intros Hnone. unfold required. now rewrite Hnone.
Qed.

(** X4.  The schema of the fit evaluation on a document.  Anything but
    an object is refused.  An object that lacks [fit_score], [is_fit] or
    [fit_summary] is refused, and the lacking field is reported as
    missing.  In an accepted object the flag and the summary are the
    converted members, and each of the five list fields is the converted
    member when the object has it and the empty list when it has not. *)
Theorem FitEvaluation_validate_fields {R : Runtime} :
  (forall j, (forall ms, j <> JObj ms) ->
             FitEvaluation_validate j = inl [(EmptyString, "model_type")])
  /\ (forall ms name,
         In name ["fit_score"; "is_fit"; "fit_summary"] ->
         member name ms = None ->
         exists es, FitEvaluation_validate (JObj ms) = inl es
                    /\ In (name, "missing") es)
  /\ (forall ms ev,
         FitEvaluation_validate (JObj ms) = inr ev ->
         (exists x, member "is_fit" ms = Some x
                    /\ to_bool x = Some (is_fit ev))
         /\ (exists x, member "fit_summary" ms = Some x
                       /\ to_str x = Some (fit_summary ev))
         /\ match member "strengths" ms with
            | None => strengths ev = []
            | Some x => to_str_list x = Some (strengths ev)
            end
         /\ match member "gaps" ms with
            | None => gaps ev = []
            | Some x => to_str_list x = Some (gaps ev)
            end
         /\ match member "recommendations" ms with
            | None => recommendations ev = []
            | Some x => to_str_list x = Some (recommendations ev)
            end
         /\ match member "missing_keywords" ms with
            | None => missing_keywords ev = []
            | Some x => to_str_list x = Some (missing_keywords ev)
            end
         /\ match member "risk_flags" ms with
            | None => risk_flags ev = []
            | Some x => to_str_list x = Some (risk_flags ev)
            end).
Proof.
  split; [ | split].
  - intros j Hj. destruct j; try reflexivity. now destruct (Hj members).
  - intros ms name Hname Hnone.
    unfold FitEvaluation_validate. cbn zeta.
    assert (Hreport :
              forall (c1 : errors + Z) (c2 : errors + bool)
                     (c3 : errors + string)
                     (c4 c5 c6 c7 c8 : errors + list string),
                In (name, "missing")
                   (errors_of c1 ++ errors_of c2 ++ errors_of c3)%list ->
                exists es,
                  match c1, c2, c3, c4, c5, c6, c7, c8 with
                  | inr a1, inr a2, inr a3, inr a4, inr a5, inr a6, inr a7,
                    inr a8 => inr (mkFitEvaluation a1 a2 a3 a4 a5 a6 a7 a8)
                  | _, _, _, _, _, _, _, _ =>
                      inl (errors_of c1 ++ errors_of c2 ++ errors_of c3
                           ++ errors_of c4 ++ errors_of c5 ++ errors_of c6
                           ++ errors_of c7 ++ errors_of c8)%list
                  end = inl es /\ In (name, "missing") es).
    { intros c1 c2 c3 c4 c5 c6 c7 c8 Hin.
      assert (Hin' : In (name, "missing")
                        (errors_of c1 ++ errors_of c2 ++ errors_of c3
                         ++ errors_of c4 ++ errors_of c5 ++ errors_of c6
                         ++ errors_of c7 ++ errors_of c8)%list).
      { rewrite !in_app_iff in *. tauto. }
      destruct c1 as [e1 | a1]; [eexists; split; [reflexivity | exact Hin'] | ].
      destruct c2 as [e2 | a2]; [eexists; split; [reflexivity | exact Hin'] | ].
      destruct c3 as [e3 | a3]; [eexists; split; [reflexivity | exact Hin'] | ].
      cbn in Hin. contradiction. }
    apply Hreport. rewrite !in_app_iff.
    destruct Hname as [<- | [<- | [<- | []]]].
    + left. unfold required at 1. rewrite Hnone. cbn. now left.
    + right. left. rewrite (required_absent _ _ _ _ Hnone). now left.
    + right. right. rewrite (required_absent _ _ _ _ Hnone). now left.
  - intros ms ev. unfold FitEvaluation_validate. cbn zeta.
    destruct (ge_le 0 100 "fit_score" _) as [es1 | a1]; [discriminate | ].
    destruct (required to_bool _ _ _) as [es2 | a2] eqn:H2; [discriminate | ].
    destruct (required to_str _ _ _) as [es3 | a3] eqn:H3; [discriminate | ].
    destruct (defaulted _ _ _ "strengths" _) as [es4 | a4] eqn:H4;
      [discriminate | ].
    destruct (defaulted _ _ _ "gaps" _) as [es5 | a5] eqn:H5;
      [discriminate | ].
    destruct (defaulted _ _ _ "recommendations" _) as [es6 | a6] eqn:H6;
      [discriminate | ].
    destruct (defaulted _ _ _ "missing_keywords" _) as [es7 | a7] eqn:H7;
      [discriminate | ].
    destruct (defaulted _ _ _ "risk_flags" _) as [es8 | a8] eqn:H8;
      [discriminate | ].
    intros [= <-].
    cbn [is_fit fit_summary strengths gaps recommendations missing_keywords
         risk_flags].
    split; [exact (required_some _ _ _ _ _ H2) | ].
    split; [exact (required_some _ _ _ _ _ H3) | ].
    split; [exact (defaulted_absent _ _ _ _ _ _ H4) | ].
    split; [exact (defaulted_absent _ _ _ _ _ _ H5) | ].
    split; [exact (defaulted_absent _ _ _ _ _ _ H6) | ].
    split; [exact (defaulted_absent _ _ _ _ _ _ H7) | ].
    exact (defaulted_absent _ _ _ _ _ _ H8).
Qed.

(** X5.  The text the PDF extractor returns is never empty; and
    whatever goes wrong inside it, in the reader or in the pages, reaches
    the caller as a ValueError whose message starts with
    "Failed to read PDF: " or with "Unexpected error parsing PDF: ". *)
Theorem extract_text_from_pdf_outcome {R : Runtime} (pdf_bytes : list byte)
        (w : world) :
  match fst (extract_text_from_pdf pdf_bytes w) with
  | Ok text => truthy_str (Some text) = true
  | Raise e =>
      is_ValueError e = true
      /\ exists x, str e = "Failed to read PDF: " ++ x
                   \/ str e = "Unexpected error parsing PDF: " ++ x
  end.
Proof.
  destruct (extractor_outcome pdf_bytes w) as [_ Hfst].
  destruct (fst (extract_text_from_pdf pdf_bytes w)) as [text | e].
  - destruct Hfst as (c & s & ->). reflexivity.
  - destruct Hfst as [x [-> | ->]]; (split; [reflexivity | ]); exists x;
      [left | right]; reflexivity.
Qed.

(** X6.  The first node of the graph touches nothing but [resume_text]:
    when it returns, the state has a non-empty text and its five other
    fields are those it was given; when it raises, it raises a ValueError.
    Either way the world has at most the call of the extractor more. *)
Theorem parse_resume_node_frame {R : Runtime} (state : EvaluationState)
        (w : world) :
  (snd (parse_resume_node state w) = w
   \/ snd (parse_resume_node state w) = emit Ev_pdf w)
  /\ match fst (parse_resume_node state w) with
     | Ok state' =>
         truthy_str (resume_text state') = true
         /\ resume_pdf_bytes state' = resume_pdf_bytes state
         /\ job_description_text state' = job_description_text state
         /\ Graph.candidate_profile state' = Graph.candidate_profile state
         /\ Graph.job_description state' = Graph.job_description state
         /\ Graph.evaluation state' = Graph.evaluation state
     | Raise e => is_ValueError e = true
     end.
Proof.
  unfold parse_resume_node.
  destruct (truthy_str (resume_text state)) eqn:Htext.
  - split; [left; reflexivity | ]. cbn [fst ret]. now rewrite Htext.
  - destruct (resume_pdf_bytes state) as [[ | b bs] | ] eqn:Hbytes.
    + split; [left; reflexivity | reflexivity].
    + unfold bind.
      destruct (extractor_outcome (b :: bs) w) as [Hsnd Hfst].
      destruct (extract_text_from_pdf (b :: bs) w) as [[t | e] w1];
        cbn [fst snd] in *; subst w1.
      * split; [right; reflexivity | ].
        destruct Hfst as (c & s & ->). cbn. now rewrite Hbytes.
      * split; [right; reflexivity | ].
        destruct Hfst as [x [-> | ->]]; reflexivity.
    + split; [left; reflexivity | reflexivity].
Qed.

(** X7.  A run from PDF bytes is the run from the extracted text: when
    no resume text is given and the extractor returns [text] for the
    bytes, the run returns or raises exactly what the run given that text
    does once the call of the extractor is logged, and leaves the same
    world. *)
Theorem run_evaluation_pdf_as_text {R : Runtime} (b : byte) (bs : list byte)
        (resume_text : option string) (c : ascii) (s : string)
        (text : string) (w : world) :
  truthy_str resume_text = false ->
  fst (extract_text_from_pdf (b :: bs) w) = Ok text ->
  run_evaluation (Some (b :: bs)) resume_text (String c s) w
  = run_evaluation (Some (b :: bs)) (Some text) (String c s) (emit Ev_pdf w).
Proof.
  intros Hnone Htext.
  destruct (extractor_outcome (b :: bs) w) as [Hsnd Hfst].
  rewrite Htext in Hfst. destruct Hfst as (c0 & s0 & ->).
  unfold run_evaluation. cbn [truthy_str truthy_bytes negb andb].
  cbn zeta. unfold get_evaluation_graph, build_evaluation_graph.
  cbn [invoke]. unfold bind at 1. unfold bind at 2.
  unfold bind at 1. unfold bind at 2.
  unfold parse_resume_node. cbn [Graph.resume_text resume_pdf_bytes truthy_str].
  rewrite Hnone. unfold bind at 1.
  destruct (extract_text_from_pdf (b :: bs) w) as [[t | e] w1];
    cbn [fst snd] in *; [ | discriminate Htext].
  injection Htext as ->. subst w1. reflexivity.
Qed.

Lemma run_evaluation_pdf_as_text_witness :
  let R := Demo.runtime Demo.key
             [Demo.says Demo.profile_text; Demo.says Demo.job_text;
              Demo.says Demo.score75_unfit]
             (Demo.pages_reader Demo.mixed_pdf) in
  run_evaluation (Some Demo.some_bytes) None "Engineer wanted" Demo.fresh
  = run_evaluation (Some Demo.some_bytes)
                   (Some (String.concat blank_line
                                        ["Jane Doe"; "Skills: Python"]))
                   "Engineer wanted" (emit Ev_pdf Demo.fresh).
Proof.
  cbn zeta.
  apply (@run_evaluation_pdf_as_text
           (Demo.runtime Demo.key
              [Demo.says Demo.profile_text; Demo.says Demo.job_text;
               Demo.says Demo.score75_unfit]
              (Demo.pages_reader Demo.mixed_pdf))
           x25 [x50; x44; x46] None "E"%char "ngineer wanted");
    reflexivity.
Defined.

(** X8.  In every run the extractor and each stage are entered at most
    once, the job stage only in a run that entered the profile stage and
    the fit stage only in a run that entered the job stage; and a run
    that is given a resume text does not call the extractor. *)
Theorem run_evaluation_stage_order {R : Runtime}
        (bytes : option (list byte)) (text : option string) (jd : string)
        (w : world) :
  let w' := snd (run_evaluation bytes text jd w) in
  exists p a b f : nat,
    count Ev_pdf w' = (count Ev_pdf w + p)%nat
    /\ count Ev_profile w' = (count Ev_profile w + a)%nat
    /\ count Ev_job w' = (count Ev_job w + b)%nat
    /\ count Ev_fit w' = (count Ev_fit w + f)%nat
    /\ (p <= 1)%nat /\ (f <= b)%nat /\ (b <= a)%nat /\ (a <= 1)%nat
    /\ (truthy_str text = true -> p = 0%nat).
Proof.
  destruct (run_evaluation_effect bytes text jd w)
    as (p & a & b & f & H1 & H2 & H3 & H4 & Hp & Hfb & Ha & Ht & _).
  cbn zeta. exists p, a, b, f.
  repeat (split; [first [assumption | lia] | ]). exact Ht.
Qed.

(** X9.  A run calls the service at most nine times and sleeps at most
    twelve seconds: at most three calls and four seconds for each stage
    it entered. *)
Theorem run_evaluation_budget {R : Runtime}
        (bytes : option (list byte)) (text : option string) (jd : string)
        (w : world) :
  let w' := snd (run_evaluation bytes text jd w) in
  let stages := (count Ev_profile w' - count Ev_profile w
                 + (count Ev_job w' - count Ev_job w)
                 + (count Ev_fit w' - count Ev_fit w))%nat in
  (stages <= 3)%nat
  /\ (count Ev_create w <= count Ev_create w'
      <= count Ev_create w + 3 * stages)%nat
  /\ (slept w <= slept w' <= slept w + 4 * Z.of_nat stages)%Z
  /\ (count Ev_create w' <= count Ev_create w + 9)%nat
  /\ (slept w' <= slept w + 12)%Z.
Proof.
  destruct (run_evaluation_effect bytes text jd w)
    as (p & a & b & f & H1 & H2 & H3 & H4 & Hp & Hfb & Ha & Ht & Hcr & Hsl & _).
  cbn zeta in *. rewrite H2, H3, H4.
  replace (count Ev_profile w + a - count Ev_profile w
           + (count Ev_job w + b - count Ev_job w)
           + (count Ev_fit w + f - count Ev_fit w))%nat
    with (a + b + f)%nat by lia.
  repeat split; lia.
Qed.

(** X10.  A run that returns has entered each of the three stages exactly
    once and called the service at least three times; the evaluation it
    returns carries a score between 0 and 100 and the flag
    [fit_score >= 70]; and the client exists from then on. *)
Theorem run_evaluation_success {R : Runtime}
        (bytes : option (list byte)) (text : option string) (jd : string)
        (w w' : world) (result : EvaluationResult) :
  run_evaluation bytes text jd w = (Ok result, w') ->
  count Ev_profile w' = S (count Ev_profile w)
  /\ count Ev_job w' = S (count Ev_job w)
  /\ count Ev_fit w' = S (count Ev_fit w)
  /\ (count Ev_create w + 3 <= count Ev_create w')%nat
  /\ client_ready w' = true
  /\ is_fit (Schemas.evaluation result)
     = (70 <=? fit_score (Schemas.evaluation result))%Z
  /\ (0 <= fit_score (Schemas.evaluation result) <= 100)%Z.
Proof.
  intros Hrun.
  destruct (run_evaluation_effect bytes text jd w)
    as (p & a & b & f & H1 & H2 & H3 & H4 & _ & _ & _ & _ & _ & _ & Hout).
  cbn zeta in *. rewrite Hrun in *. cbn [fst snd] in *.
  destruct Hout as (-> & -> & -> & Hthree & Hready & Hfit & Hrange).
  repeat (split; [first [assumption | lia] | ]). lia.
Qed.

Lemma run_evaluation_success_witness :
  let R := Demo.runtime Demo.key
             [Demo.says Demo.profile_text; Demo.says "oops";
              Demo.says Demo.job_text; Demo.says Demo.score40_fit]
             (Demo.pages_reader Demo.mixed_pdf) in
  let result := mkEvaluationResult R Demo.profile_doc Demo.job_doc
                  (mkFitEvaluation 40 false "major gaps" [] [] [] [] []) in
  let w' := World true [Ev_create; Ev_fit; Ev_create; Ev_sleep 2; Ev_create;
                        Ev_job; Ev_create; Ev_profile; Ev_pdf] in
  count Ev_profile w' = S (count Ev_profile Demo.fresh)
  /\ count Ev_job w' = S (count Ev_job Demo.fresh)
  /\ count Ev_fit w' = S (count Ev_fit Demo.fresh)
  /\ (count Ev_create Demo.fresh + 3 <= count Ev_create w')%nat
  /\ client_ready w' = true
  /\ is_fit (Schemas.evaluation result)
     = (70 <=? fit_score (Schemas.evaluation result))%Z
  /\ (0 <= fit_score (Schemas.evaluation result) <= 100)%Z.
Proof.
  cbn zeta.
  apply (@run_evaluation_success
           (Demo.runtime Demo.key
              [Demo.says Demo.profile_text; Demo.says "oops";
               Demo.says Demo.job_text; Demo.says Demo.score40_fit]
              (Demo.pages_reader Demo.mixed_pdf))
           (Some Demo.some_bytes) None "Engineer wanted" Demo.fresh).
  vm_compute. reflexivity.
Defined.



(* ===================================================================== *)
(** * Further properties: the HTTP handlers *)
(* ===================================================================== *)







(** X14.  What the multipart endpoint checks before it runs anything.
    With no job text in either field it answers 400.  The field
    [job_description], when not empty, is the one used: the other is
    then ignored.  A file declared with a content type other than
    application/pdf is answered 400.  A request with neither a non-empty
    file nor a non-empty text is answered 400.  None of these answers
    changes the world. *)
Theorem evaluate_resume_request_checks {R : Runtime}
        (resume : option Api.UploadFile)
        (job_description resume_text job_description_text : option string)
        (w : world) :
  let r := Api.evaluate_resume resume job_description resume_text
                               job_description_text w in
  let has_job := truthy_str job_description
                 || truthy_str job_description_text in
  (has_job = false ->
   r = (Api.HTTPException 400
          "job_description or job_description_text is required", w))
  /\ (truthy_str job_description = true ->
      r = Api.evaluate_resume resume job_description resume_text None w)
  /\ (forall file ct,
         has_job = true -> resume = Some file ->
         Api.content_type file = Some ct -> ct <> "application/pdf" ->
         r = (Api.HTTPException 400 "Resume file must be a PDF", w))
  /\ (forall file,
         has_job = true -> resume = Some file ->
         Api.content_type file = None
         \/ Api.content_type file = Some "application/pdf" ->
         Api.read file = [] -> truthy_str resume_text = false ->
         r = (Api.HTTPException 400
                "Either resume file or resume_text must be provided", w))
  /\ (has_job = true -> resume = None -> truthy_str resume_text = false ->
      r = (Api.HTTPException 400
             "Either resume file or resume_text must be provided", w)).
Proof.
  cbn zeta. unfold Api.evaluate_resume. cbn zeta.
  split; [ | split; [ | split; [ | split]]].
  - intros Hnone. apply orb_false_elim in Hnone as [H1 H2]. rewrite H1.
    destruct job_description_text as [[ | c s] | ];
      [reflexivity | discriminate H2 | reflexivity].
  - intros Hjd. now rewrite Hjd.
  - intros file ct Hjob -> Hct Hne.
    rewrite Hct. apply String.eqb_neq in Hne. rewrite Hne.
    destruct (truthy_str job_description) eqn:H1.
    + destruct job_description as [[ | c s] | ]; try discriminate H1.
      reflexivity.
    + cbn [orb] in Hjob.
      destruct job_description_text as [[ | c s] | ]; try discriminate Hjob.
      reflexivity.
  - intros file Hjob -> Hct Hread Htext.
    assert (Hupload :
              match Api.content_type file with
              | Some ct => if String.eqb ct "application/pdf"
                           then inr (Some (Api.read file))
                           else inl "Resume file must be a PDF"
              | None => inr (Some (Api.read file))
              end = (inr (Some []) : string + option (list byte))).
    { rewrite Hread. destruct Hct as [-> | ->]; reflexivity. }
    rewrite Hupload, Htext. cbn [truthy_bytes negb andb].
    destruct (truthy_str job_description) eqn:H1.
    + destruct job_description as [[ | c s] | ]; try discriminate H1.
      reflexivity.
    + cbn [orb] in Hjob.
      destruct job_description_text as [[ | c s] | ]; try discriminate Hjob.
      reflexivity.
  - intros Hjob -> Htext. rewrite Htext. cbn [truthy_bytes negb andb].
    destruct (truthy_str job_description) eqn:H1.
    + destruct job_description as [[ | c s] | ]; try discriminate H1.
      reflexivity.
    + cbn [orb] in Hjob.
      destruct job_description_text as [[ | c s] | ]; try discriminate Hjob.
      reflexivity.
Qed.

(** X15.  The client is a singleton.  With a client in place or a
    non-empty key, [get_openai_client] succeeds, adds nothing to the log
    and leaves a client in place; from then on it succeeds without
    reading the key again, whatever the environment has become.  With
    neither, it raises the ValueError of config.py and changes nothing. *)
Theorem get_openai_client_singleton {R : Runtime} (w : world) :
  (client_ready w = true ->
   exists w1,
     get_openai_client w = (Ok tt, w1)
     /\ _client w1 = true /\ log w1 = log w
     /\ forall R' : Runtime, @get_openai_client R' w1 = (Ok tt, w1))
  /\ (client_ready w = false ->
      get_openai_client w = (Raise (ValueError key_message), w)).
Proof.
  split.
  - intros Hready. exists (World true (log w)).
    split; [now apply get_openai_client_ready | ].
    repeat split.
  - unfold client_ready, get_openai_client, get_openai_api_key, key_message.
    destruct w as [[ | ] l]; cbn; [discriminate | ].
    destruct OPENAI_API_KEY as [[ | c s] | ]; cbn;
      intros Hk; try discriminate Hk; reflexivity.
Qed.

(** The handlers on three requests: a scanned PDF, a service that keeps
    answering with malformed JSON, and an environment without key. *)
Example evaluate_resume_scanned_pdf :
  let R := Demo.runtime Demo.key [] (Demo.pages_reader Demo.scanned_pdf) in
  Api.evaluate_resume
    (Some (Api.mkUploadFile (Some "application/pdf") Demo.some_bytes))
    (Some "Engineer wanted") None None Demo.fresh
  = (Api.HTTPException 400
       "Unexpected error parsing PDF: No text could be extracted from the PDF",
     World false [Ev_pdf]).
Proof. reflexivity. Qed.

Example evaluate_resume_json_exhausted :
  let R := Demo.runtime Demo.key
             [Demo.says "a"; Demo.says "b"; Demo.says "c"]
             (Demo.pages_reader []) in
  let r := Api.evaluate_resume_json
             (Api.mkEvaluateRequest (Some "Jane Doe, engineer")
                                    "Engineer wanted") Demo.fresh in
  Api.status (fst r) = 500%nat /\ count Ev_create (snd r) = 3%nat.
Proof. vm_compute. split; reflexivity. Qed.

Example evaluate_resume_json_without_key :
  let R := Demo.runtime None [Demo.says Demo.profile_text]
                        (Demo.pages_reader []) in
  Api.evaluate_resume_json
    (Api.mkEvaluateRequest (Some "Jane Doe, engineer") "Engineer wanted")
    Demo.fresh
  = (Api.HTTPException 400 key_message, World false [Ev_profile]).
Proof. reflexivity. Qed.
